(** * Candidate extraction from the election workbook

    A shallow embedding of [scripts/extract_candidates.py] and the properties
    of its extraction pipeline: workbook -> sheet -> drawing -> image.

    Conventions of the embedding.
    - A Python [str] is a [string]; each [ascii] stands for the code point of
      the same number, so the strings covered are those over code points
      below 256.
    - A Python [int] is a [Z].
    - A [dict] is a [gmap]; [d.get(k)] is [d !! k] and [d[k] = v] is
      [<[k:=v]> d].
    - An exception is the [Raise] branch of [result]; the statements of a
      function body are sequenced with the bind of that monad, so the first
      exception aborts the rest, as in Python.
    - The builtin [int(...)] on text is a parameter [py_int] of the
      development: every theorem holds for whatever integer parser the
      interpreter provides.  The examples run with [int_literal]. *)

From Stdlib Require Import ZArith List String Ascii Bool Lia.
From stdpp Require Import base option list gmap strings pretty.

Local Open Scope string_scope.
Local Open Scope Z_scope.

(** ** Exceptions *)

Inductive exn : Type :=
| KeyError | ParseError | ValueError | IndexError | TypeError | AttributeError.

Inductive result (A : Type) : Type :=
| Ok (a : A)
| Raise (e : exn).
Arguments Ok {A} a.
Arguments Raise {A} e.

Definition rbind {A B} (m : result A) (f : A -> result B) : result B :=
  match m with
  | Ok a => f a
  | Raise e => Raise e
  end.

Notation "'let*' x ':=' m 'in' k" := (rbind m (fun x => k))
  (at level 10, x pattern, m at level 100, k at level 200).

Definition raises {A} (m : result A) : Prop := exists e, m = Raise e.

(** [for x in xs: s = body(s, x)], the shape of every loop of the script;
    a [continue] is a body that returns the state unchanged. *)
Fixpoint for_loop {A S} (body : S -> A -> result S) (xs : list A) (s : S)
  : result S :=
  match xs with
  | [] => Ok s
  | x :: rest => let* s' := body s x in for_loop body rest s'
  end.

(** ** Strings *)

Module Str.

Definition chars (s : string) : list ascii := list_ascii_of_string s.
Definition of_chars (l : list ascii) : string := string_of_list_ascii l.

Definition code (c : ascii) : N := N_of_ascii c.
Definition in_range (lo hi : N) (c : ascii) : bool :=
  (N.leb lo (code c) && N.leb (code c) hi)%bool.

(** [str.isspace] on one character, for code points below 256. *)
Definition isspace (c : ascii) : bool :=
  (in_range 9 13 c || in_range 28 32 c
   || N.eqb (code c) 133 || N.eqb (code c) 160)%bool.

(** [str.isalpha] on one character, for code points below 256. *)
Definition isalpha (c : ascii) : bool :=
  (in_range 65 90 c || in_range 97 122 c
   || N.eqb (code c) 170 || N.eqb (code c) 181 || N.eqb (code c) 186
   || in_range 192 214 c || in_range 216 246 c || in_range 248 255 c)%bool.

Fixpoint drop_while (p : ascii -> bool) (l : list ascii) : list ascii :=
  match l with
  | [] => []
  | c :: l' => if p c then drop_while p l' else l
  end.

Definition lstrip_by (p : ascii -> bool) (l : list ascii) : list ascii :=
  drop_while p l.
Definition rstrip_by (p : ascii -> bool) (l : list ascii) : list ascii :=
  rev (drop_while p (rev l)).
Definition strip_by (p : ascii -> bool) (l : list ascii) : list ascii :=
  rstrip_by p (lstrip_by p l).

(** [s.strip()] *)
Definition strip (s : string) : string := of_chars (strip_by isspace (chars s)).

(** [s.strip(c)] for a one-character argument. *)
Definition strip_char (c : ascii) (s : string) : string :=
  of_chars (strip_by (Ascii.eqb c) (chars s)).

(** [s.replace(a, b)] for one-character [a] and [b]. *)
Definition replace_char (a b : ascii) (s : string) : string :=
  of_chars (List.map (fun c => if Ascii.eqb c a then b else c) (chars s)).

(** ["".join(filter(p, s))] *)
Definition filter_chars (p : ascii -> bool) (s : string) : string :=
  of_chars (List.filter p (chars s)).

Definition startswith (s pre : string) : bool := String.prefix pre s.

Definition endswith (s suf : string) : bool :=
  String.prefix (of_chars (rev (chars suf))) (of_chars (rev (chars s))).

Definition eqb (a b : string) : bool := String.eqb a b.

(** Truthiness of a string: [not s] is [negb (truthy s)]. *)
Definition truthy (s : string) : bool := negb (String.eqb s "").

(** [o or ""] for [o] a string or [None]. *)
Definition or_empty (o : option string) : string := default "" o.

(** [s.split(sep)] for a one-character separator: never the empty list. *)
Fixpoint split (sep : ascii) (s : string) : list string :=
  match s with
  | EmptyString => [""]
  | String c s' =>
      if Ascii.eqb c sep then "" :: split sep s'
      else match split sep s' with
           | h :: t => String c h :: t
           | [] => [String c ""]
           end
  end.

(** [sep.join(parts)] *)
Fixpoint join (sep : string) (parts : list string) : string :=
  match parts with
  | [] => ""
  | [p] => p
  | p :: rest => p ++ sep ++ join sep rest
  end.

(** [s.lower()], for code points below 256. *)
Definition lower_char (c : ascii) : ascii :=
  if (in_range 65 90 c
      || (in_range 192 222 c && negb (N.eqb (code c) 215)))%bool
  then ascii_of_N (code c + 32) else c.
Definition lower (s : string) : string := of_chars (List.map lower_char (chars s)).

End Str.

(** ** Paths: [posixpath] and [pathlib] *)

Module Path.

Definition slash : ascii := "/"%char.
Definition is_slash (c : ascii) : bool := Ascii.eqb c slash.

(** [posixpath.join(a, b)] *)
Definition join2 (a b : string) : string :=
  if Str.startswith b "/" then b
  else if (negb (Str.truthy a) || Str.endswith a "/")%bool then a ++ b
  else a ++ "/" ++ b.

(** [posixpath.join(a, *p)] *)
Definition join (a : string) (p : list string) : string := fold_left join2 p a.

(** [posixpath.dirname(p)]: the text up to and including the last slash,
    without its trailing slashes unless it consists of slashes only. *)
Definition dirname (p : string) : string :=
  let head := rev (Str.drop_while (fun c => negb (is_slash c)) (rev (Str.chars p))) in
  if (negb (forallb is_slash head))%bool
  then Str.of_chars (Str.rstrip_by is_slash head)
  else Str.of_chars head.

(** The component loop of [posixpath.normpath]; [new_comps] is kept in
    reverse, its head being [new_comps[-1]]. *)
Fixpoint norm_comps (rooted : bool) (comps new_comps : list string) : list string :=
  match comps with
  | [] => rev new_comps
  | comp :: rest =>
      if (Str.eqb comp "" || Str.eqb comp ".")%bool then norm_comps rooted rest new_comps
      else if (negb (Str.eqb comp "..")
               || (negb rooted && match new_comps with [] => true | _ => false end)
               || match new_comps with last :: _ => Str.eqb last ".." | [] => false end)%bool
      then norm_comps rooted rest (comp :: new_comps)
      else match new_comps with
           | _ :: popped => norm_comps rooted rest popped
           | [] => norm_comps rooted rest new_comps
           end
  end.

(** [posixpath.normpath(path)] *)
Definition normpath (path : string) : string :=
  if negb (Str.truthy path) then "."
  else
    let initial_slashes : nat :=
      if Str.startswith path "/" then
        if (Str.startswith path "//" && negb (Str.startswith path "///"))%bool
        then 2%nat else 1%nat
      else 0%nat in
    let comps := norm_comps (negb (Nat.eqb initial_slashes 0)) (Str.split slash path) [] in
    let joined := Str.join "/" comps in
    let out := Str.of_chars (repeat slash initial_slashes) ++ joined in
    if Str.truthy out then out else ".".

(** [Path(p).name]: the last component that is neither empty nor a dot. *)
Definition name (p : string) : string :=
  List.last (List.filter (fun c => negb (Str.eqb c "" || Str.eqb c "."))%bool
                         (Str.split slash p)) "".

(** Offset of the last dot of a list of characters, [None] without one. *)
Fixpoint rfind_dot (l : list ascii) (i : nat) (found : option nat) : option nat :=
  match l with
  | [] => found
  | c :: l' => rfind_dot l' (S i) (if Ascii.eqb c "."%char then Some i else found)
  end.

(** [Path(p).suffix]: from the last dot of the name on, when that dot is
    neither the first nor the last character of the name. *)
Definition suffix (p : string) : string :=
  let n := Str.chars (name p) in
  match rfind_dot n 0%nat None with
  | Some i =>
      if (Nat.ltb 0 i && Nat.ltb i (length n - 1))%bool
      then Str.of_chars (skipn i n) else ""
  | None => ""
  end.

End Path.

(** ** [slugify] *)

Definition is_slug_char (c : ascii) : bool :=
  (Str.in_range 97 122 c || Str.in_range 48 57 c)%bool.

(** [re.sub(r"[^a-z0-9]+", "-", text)]: every maximal run of characters
    outside [a-z0-9] becomes one dash; [in_run] tells that the previous
    character belonged to such a run. *)
Fixpoint sub_non_slug (l : list ascii) (in_run : bool) : list ascii :=
  match l with
  | [] => []
  | c :: l' =>
      if is_slug_char c then c :: sub_non_slug l' false
      else if in_run then sub_non_slug l' true
      else "-"%char :: sub_non_slug l' true
  end.

(** [re.sub(r"-+", "-", text)] *)
Fixpoint sub_dashes (l : list ascii) (in_run : bool) : list ascii :=
  match l with
  | [] => []
  | c :: l' =>
      if Ascii.eqb c "-"%char
      then if in_run then sub_dashes l' true else c :: sub_dashes l' true
      else c :: sub_dashes l' false
  end.

Definition slugify (text : string) : string :=
  let text := Str.lower text in
  let text := Str.of_chars (sub_non_slug (Str.chars text) false) in
  Str.strip_char "-"%char (Str.of_chars (sub_dashes (Str.chars text) false)).

(** ** Parsed XML: [xml.etree.ElementTree.Element] *)

#[local] Unset Elimination Schemes.
Inductive Element : Type :=
  Elem (tag : string) (attrib : gmap string string) (text : option string)
       (children : list Element).
#[local] Set Elimination Schemes.

Definition tag (e : Element) : string := let 'Elem t _ _ _ := e in t.
Definition attrib (e : Element) : gmap string string := let 'Elem _ a _ _ := e in a.
Definition text (e : Element) : option string := let 'Elem _ _ x _ := e in x.
Definition children (e : Element) : list Element := let 'Elem _ _ _ c := e in c.

(** [e.iter()]: the element and its descendants in document order. *)
Fixpoint iter (e : Element) : list Element :=
  match e with
  | Elem _ _ _ cs => e :: flat_map iter cs
  end.

Definition has_tag (t : string) (e : Element) : bool := Str.eqb (tag e) t.

(** [e.findall("ns:t", NS)]: the children of [e] with the tag. *)
Definition findall (t : string) (e : Element) : list Element :=
  List.filter (has_tag t) (children e).

(** [e.find("ns:t", NS)] *)
Definition find (t : string) (e : Element) : option Element :=
  head (findall t e).

(** [e.findall(".//ns:t", NS)]: the descendants of [e] with the tag. *)
Definition findall_desc (t : string) (e : Element) : list Element :=
  List.filter (has_tag t) (flat_map iter (children e)).

(** [e.find(".//ns:t", NS)] *)
Definition find_desc (t : string) (e : Element) : option Element :=
  head (findall_desc t e).

(** The namespaces of [NS], and a tag in Clark notation. *)
Module NS.
Definition main := "http://schemas.openxmlformats.org/spreadsheetml/2006/main".
Definition rel := "http://schemas.openxmlformats.org/package/2006/relationships".
Definition xdr := "http://schemas.openxmlformats.org/drawingml/2006/spreadsheetDrawing".
Definition a := "http://schemas.openxmlformats.org/drawingml/2006/main".
Definition r := "http://schemas.openxmlformats.org/officeDocument/2006/relationships".
Definition qname (ns local : string) : string := "{" ++ ns ++ "}" ++ local.
End NS.

(** ** The package: [zipfile.ZipFile] *)

(** A member of the archive is either a well-formed XML document, given by
    its root, or other bytes, on which [ET.fromstring] raises. *)
Inductive Member : Type :=
| Xml (root : Element)
| Blob (data : string).

(** [zip_file.read(name)] *)
Definition zip_read (zip_file : gmap string Member) (name : string) : result Member :=
  match zip_file !! name with
  | Some m => Ok m
  | None => Raise KeyError
  end.

(** [name in zip_file.namelist()] *)
Definition in_namelist (zip_file : gmap string Member) (name : string) : bool :=
  bool_decide (is_Some (zip_file !! name)).

(** [ET.fromstring(bytes)] *)
Definition fromstring (m : Member) : result Element :=
  match m with
  | Xml root => Ok root
  | Blob _ => Raise ParseError
  end.

Definition read_xml (zip_file : gmap string Member) (name : string) : result Element :=
  let* m := zip_read zip_file name in fromstring m.

(** [d[k]] on a dict. *)
Definition getitem (d : gmap string string) (k : string) : result string :=
  match d !! k with
  | Some v => Ok v
  | None => Raise KeyError
  end.

(** [l[i]] on a list, with Python's negative indices. *)
Definition list_index {A} (l : list A) (i : Z) : result A :=
  let n := Z.of_nat (length l) in
  let j := if Z.ltb i 0 then i + n else i in
  if (Z.leb 0 j && Z.ltb j n)%bool then
    match l !! Z.to_nat j with
    | Some x => Ok x
    | None => Raise IndexError
    end
  else Raise IndexError.

(** ** Output records *)

Record Candidate : Type := mkCandidate {
  name : string;
  statement : string;
  headshot : option string;
}.

Record Position : Type := mkPosition {
  title : string;
  slug : string;
  sheet : string;
  candidates : list Candidate;
}.

(** [POSITION_NAME_OVERRIDES.get(sheet_name, sheet_name)] *)
Definition POSITION_NAME_OVERRIDES : gmap string string :=
  <["International Student Affairs O" := "International Student Affairs Officer"]>
  (<["Vice President of Internal Affa" := "Vice President of Internal Affairs"]> ∅).

(** [str(HEADSHOT_DIR.relative_to(ROOT))] *)
Definition HEADSHOT_DIR : string := "assets/headshots".

(** ** The extraction functions *)

Module Tag.
Definition t := NS.qname NS.main "t".
Definition si := NS.qname NS.main "si".
Definition sheets := NS.qname NS.main "sheets".
Definition row := NS.qname NS.main "row".
Definition c := NS.qname NS.main "c".
Definition v := NS.qname NS.main "v".
Definition Relationship := NS.qname NS.rel "Relationship".
Definition from := NS.qname NS.xdr "from".
Definition pic := NS.qname NS.xdr "pic".
Definition xdr_row := NS.qname NS.xdr "row".
Definition blip := NS.qname NS.a "blip".
Definition r_id := NS.qname NS.r "id".
Definition r_embed := NS.qname NS.r "embed".
End Tag.

Definition load_shared_strings (zip_file : gmap string Member) : result (list string) :=
  if negb (in_namelist zip_file "xl/sharedStrings.xml") then Ok []
  else
    let* root := read_xml zip_file "xl/sharedStrings.xml" in
    Ok (List.map
          (fun si => String.concat ""
             (List.map (fun t => Str.or_empty (text t)) (findall_desc Tag.t si)))
          (findall_desc Tag.si root)).

(** The dict comprehension [{rel.attrib["Id"]: f(rel.attrib["Target"]) for rel in rels}]. *)
Definition rel_map_body (f : string -> string) (rel_map : gmap string string)
  (rel : Element) : result (gmap string string) :=
  let* id := getitem (attrib rel) "Id" in
  let* target := getitem (attrib rel) "Target" in
  Ok (<[id := f target]> rel_map).

Definition build_rel_map (f : string -> string) (rels : list Element)
  : result (gmap string string) :=
  for_loop (rel_map_body f) rels ∅.

(** [rel_map.get(rel_id)], where [rel_id] may be [None]. *)
Definition get_opt (rel_map : gmap string string) (rel_id : option string)
  : option string :=
  match rel_id with
  | Some k => rel_map !! k
  | None => None
  end.

Definition sheet_targets_body (rel_map : gmap string string)
  (sheets : list (string * string)) (sheet : Element)
  : result (list (string * string)) :=
  let rel_id := attrib sheet !! Tag.r_id in
  match get_opt rel_map rel_id with
  | Some target =>
      if negb (Str.truthy target) then Ok sheets
      else
        let sheet_path := Path.normpath (Path.join "xl" [target]) in
        Ok (sheets ++ [(default target (attrib sheet !! "name"), sheet_path)])%list
  | None => Ok sheets
  end.

Definition load_sheet_targets (zip_file : gmap string Member)
  : result (list (string * string)) :=
  let* workbook := read_xml zip_file "xl/workbook.xml" in
  let* rel_root := read_xml zip_file "xl/_rels/workbook.xml.rels" in
  let* rel_map := build_rel_map (fun target => target) (findall Tag.Relationship rel_root) in
  match find Tag.sheets workbook with
  | None => Raise TypeError
  | Some sheets_element => for_loop (sheet_targets_body rel_map) (children sheets_element) []
  end.

(** The sidecar relationship file of a part:
    [posixpath.join(posixpath.dirname(p), "_rels", f"{Path(p).name}.rels")]. *)
Definition rels_path (p : string) : string :=
  Path.join (Path.dirname p) ["_rels"; Path.name p ++ ".rels"].

(** The loop of [find_drawing_path], which returns from inside. *)
Fixpoint find_drawing_loop (sheet_path : string) (rels : list Element)
  : result (option string) :=
  match rels with
  | [] => Ok None
  | rel :: rest =>
      if Str.endswith (default "" (attrib rel !! "Type")) "/drawing" then
        let* target := getitem (attrib rel) "Target" in
        Ok (Some (Path.normpath (Path.join (Path.dirname sheet_path) [target])))
      else find_drawing_loop sheet_path rest
  end.

Definition find_drawing_path (zip_file : gmap string Member) (sheet_path : string)
  : result (option string) :=
  let rel_path := rels_path sheet_path in
  if negb (in_namelist zip_file rel_path) then Ok None
  else
    let* rel_root := read_xml zip_file rel_path in
    find_drawing_loop sheet_path (findall Tag.Relationship rel_root).

Section WithInt.

(** The builtin [int] applied to a string: [None] is [ValueError]. *)
Variable py_int : string -> option Z.

Definition int_of_str (s : string) : result Z :=
  match py_int s with
  | Some z => Ok z
  | None => Raise ValueError
  end.

(** [int(x)] for [x] a string or [None]. *)
Definition int_of_text (x : option string) : result Z :=
  match x with
  | Some s => int_of_str s
  | None => Raise TypeError
  end.

Definition read_cell (shared_strings : list string) (cells : gmap string string)
  (cell : Element) : result (gmap string string) :=
  let coord := default "" (attrib cell !! "r") in
  let col := Str.filter_chars Str.isalpha coord in
  let cell_type := attrib cell !! "t" in
  match find Tag.v cell with
  | None => Ok cells
  | Some value_element =>
      if Str.eqb col "" then Ok cells
      else
        let raw_value := Str.or_empty (text value_element) in
        let* raw_value :=
          (if bool_decide (cell_type = Some "s")
           then let* i := int_of_str raw_value in list_index shared_strings i
           else Ok raw_value) in
        Ok (<[col := raw_value]> cells)
  end.

Definition read_row (shared_strings : list string)
  (rows : list (Z * gmap string string)) (row : Element)
  : result (list (Z * gmap string string)) :=
  let* row_idx := int_of_str (default "0" (attrib row !! "r")) in
  let* cells := for_loop (read_cell shared_strings) (findall Tag.c row) ∅ in
  Ok (rows ++ [(row_idx, cells)])%list.

Definition read_sheet_rows (zip_file : gmap string Member) (sheet_path : string)
  (shared_strings : list string) : result (list (Z * gmap string string)) :=
  let* root := read_xml zip_file sheet_path in
  for_loop (read_row shared_strings) (findall_desc Tag.row root) [].

Definition anchor_body (rel_map : gmap string string) (anchors : gmap Z string)
  (anchor : Element) : result (gmap Z string) :=
  match find Tag.from anchor, find Tag.pic anchor with
  | Some from_cell, Some pic =>
      let* row_idx :=
        (match find Tag.xdr_row from_cell with
         | Some row => int_of_text (text row)
         | None => Raise AttributeError
         end) in
      match find_desc Tag.blip pic with
      | None => Ok anchors
      | Some blip =>
          let embed_id := attrib blip !! Tag.r_embed in
          match get_opt rel_map embed_id with
          | Some image_path =>
              if negb (Str.truthy image_path) then Ok anchors
              else Ok (<[row_idx + 1 := image_path]> anchors)
          | None => Ok anchors
          end
      end
  | _, _ => Ok anchors
  end.

Definition map_anchor_rows_to_images (zip_file : gmap string Member)
  (drawing_path : string) : result (gmap Z string) :=
  let drawing_rel_path := rels_path drawing_path in
  let* rel_root := read_xml zip_file drawing_rel_path in
  let* rel_map :=
    build_rel_map
      (fun target => Path.normpath (Path.join (Path.dirname drawing_path) [target]))
      (findall Tag.Relationship rel_root) in
  let* drawing := read_xml zip_file drawing_path in
  for_loop (anchor_body rel_map) (children drawing) ∅.

(** [ensure_headshot_path(base, ext)], relative to [ROOT]. *)
Definition ensure_headshot_path (base ext : string) : string :=
  HEADSHOT_DIR ++ "/" ++ base ++ ext.

(** The body of the loop over the data rows (lines 171-197).  The image
    bytes read from the package go to the file system, which is not part of
    this model; what stays is the path stored on the candidate. *)
Definition candidate_body (zip_file : gmap string Member) (display_name : string)
  (row_image_map : gmap Z string) (candidates : list Candidate)
  (row : Z * gmap string string) : result (list Candidate) :=
  let '(row_idx, cells) := row in
  let name := Str.strip (Str.or_empty (cells !! "A")) in
  if negb (Str.truthy name) then Ok candidates
  else
    let statement :=
      Str.strip (Str.replace_char "009"%char " "%char (Str.or_empty (cells !! "C"))) in
    let headshot_rel := row_image_map !! row_idx in
    let* headshot_path :=
      (match headshot_rel with
       | Some rel =>
           if Str.truthy rel then
             let zip_image_path := Path.normpath rel in
             let* image_bytes := zip_read zip_file zip_image_path in
             let ext := if Str.truthy (Path.suffix zip_image_path)
                        then Path.suffix zip_image_path else ".jpg" in
             let file_stem :=
               slugify display_name ++ "-" ++
               (if Str.truthy (slugify name) then slugify name
                else "row-" ++ pretty row_idx) in
             Ok (Some (ensure_headshot_path file_stem ext))
           else Ok None
       | None => Ok None
       end) in
    Ok (candidates ++ [mkCandidate name statement headshot_path])%list.

(** The body of the loop over the sheet targets (lines 159-206).  The
    [header_map] built from the first row is not used afterwards and cannot
    raise, so only the split of [rows] into header and data rows remains. *)
Definition position_body (zip_file : gmap string Member) (shared_strings : list string)
  (positions : list Position) (target : string * string) : result (list Position) :=
  let '(sheet_name, sheet_path) := target in
  let display_name := default sheet_name (POSITION_NAME_OVERRIDES !! sheet_name) in
  let* drawing_path := find_drawing_path zip_file sheet_path in
  let* row_image_map :=
    (match drawing_path with
     | Some p => if Str.truthy p then map_anchor_rows_to_images zip_file p else Ok ∅
     | None => Ok ∅
     end) in
  let* rows := read_sheet_rows zip_file sheet_path shared_strings in
  match rows with
  | [] => Ok positions
  | _header :: data_rows =>
      let* candidates := for_loop (candidate_body zip_file display_name row_image_map) data_rows [] in
      Ok (positions ++ [mkPosition display_name (slugify display_name) sheet_name candidates])%list
  end.

(** The body of the [with zipfile.ZipFile(...)] block of [main]: the
    positions handed to [json.dumps]. *)
Definition extract (zip_file : gmap string Member) : result (list Position) :=
  let* shared_strings := load_shared_strings zip_file in
  let* sheet_targets := load_sheet_targets zip_file in
  for_loop (position_body zip_file shared_strings) sheet_targets [].

(** How a run of [main] ends. *)
Inductive outcome : Type :=
| MissingSpreadsheet                       (* [return 1] *)
| Wrote (positions : list Position)        (* [return 0] *)
| Uncaught (e : exn).

Definition main (xlsx : option (gmap string Member)) : outcome :=
  match xlsx with
  | None => MissingSpreadsheet
  | Some zip_file =>
      match extract zip_file with
      | Ok positions => Wrote positions
      | Raise e => Uncaught e
      end
  end.

End WithInt.

(** ** Specification-side readings of the documents *)

(** The target path a declared sheet resolves to: its relationship id is
    present, the workbook relationship map binds it, and the bound target is
    not empty. *)
Definition resolved_target (rel_map : gmap string string) (sheet : Element)
  : option string :=
  id ← attrib sheet !! Tag.r_id;
  target ← rel_map !! id;
  if Str.truthy target then Some target else None.

(** The sheet target of a declared sheet that resolves. *)
Definition sheet_target (rel_map : gmap string string) (sheet : Element)
  : option (string * string) :=
  target ← resolved_target rel_map sheet;
  Some (default target (attrib sheet !! "name"),
        Path.normpath (Path.join "xl" [target])).

(** A relationship whose declared type ends in ["/drawing"]. *)
Definition is_drawing_rel (rel : Element) : bool :=
  Str.endswith (default "" (attrib rel !! "Type")) "/drawing".

Definition tab : ascii := "009"%char.

(** A text that is empty or made of whitespace only. *)
Definition blank (s : string) : bool := forallb Str.isspace (Str.chars s).

(** A text with no whitespace at either end. *)
Definition trimmed (s : string) : bool :=
  (match Str.chars s with [] => true | c :: _ => negb (Str.isspace c) end
   && match rev (Str.chars s) with [] => true | c :: _ => negb (Str.isspace c) end)%bool.

Definition has_tab (s : string) : bool := existsb (fun c => Ascii.eqb c tab) (Str.chars s).

(** The image anchored at a row, if any, can be read from the package. *)
Definition image_readable (zip_file : gmap string Member)
  (row_image_map : gmap Z string) (row_idx : Z) : Prop :=
  forall rel, row_image_map !! row_idx = Some rel -> Str.truthy rel = true ->
              is_Some (zip_file !! Path.normpath rel).

(** A Candidate with a name. *)
Definition named (c : Candidate) : Prop := name c <> "".

(** The picture an anchor contributes: the anchor declares a from-cell
    position with a row that reads as the integer [r], it contains a picture
    with a blip, and the embed reference of the blip is bound by the
    drawing's relationship map to a non-empty image path. *)
Definition anchor_picture (py_int : string -> option Z)
  (rel_map : gmap string string) (anchor : Element) : option (Z * string) :=
  from_cell ← find Tag.from anchor;
  pic ← find Tag.pic anchor;
  row ← find Tag.xdr_row from_cell;
  row_text ← text row;
  r ← py_int row_text;
  blip ← find_desc Tag.blip pic;
  embed_id ← attrib blip !! Tag.r_embed;
  image_path ← rel_map !! embed_id;
  if Str.truthy image_path then Some (r, image_path) else None.

(** No anchor of the drawing contributes a picture at a negative row. *)
Definition nonneg_anchor_rows (py_int : string -> option Z)
  (rel_map : gmap string string) (drawing : Element) : Prop :=
  forall anchor r image_path,
    anchor ∈ children drawing ->
    anchor_picture py_int rel_map anchor = Some (r, image_path) -> 0 <= r.

(** What one sheet target contributes to the output, set against its rows:
    a Position exactly when the row list is not empty, carrying the sheet
    name, and without candidates when the header is the only row. *)
Definition sheet_outcome (rows : list (Z * gmap string string))
  (target : string * string) (emitted : option Position) : Prop :=
  (is_Some emitted <-> rows <> [])
  /\ forall p, emitted = Some p ->
       sheet p = target.1 /\ (length rows = 1%nat -> candidates p = []).

(** ** Shapes of texts and paths *)

Definition is_dash (c : ascii) : bool := Ascii.eqb "-"%char c.

Definition slug_or_dash (c : ascii) : bool := (is_slug_char c || is_dash c)%bool.

(** No two dashes next to each other. *)
Fixpoint single_dashes (l : list ascii) : bool :=
  match l with
  | c :: (d :: _) as rest => (negb (is_dash c && is_dash d) && single_dashes rest)%bool
  | _ => true
  end.

(** The first character, if any, fails [p]. *)
Definition head_not (p : ascii -> bool) (l : list ascii) : bool :=
  match l with [] => true | c :: _ => negb (p c) end.

(** A slug: lower-case letters and digits in groups separated by single
    dashes, with no dash at either end. *)
Definition is_slug (s : string) : bool :=
  (forallb slug_or_dash (Str.chars s) && single_dashes (Str.chars s)
   && head_not is_dash (Str.chars s) && head_not is_dash (rev (Str.chars s)))%bool.

(** A text without a slash. *)
Definition no_slash (s : string) : bool :=
  forallb (fun c => negb (Path.is_slash c)) (Str.chars s).

(** A Candidate whose texts are tidy: no whitespace at the ends of the name
    or of the statement, and no tab in the statement. *)
Definition tidy (c : Candidate) : Prop :=
  trimmed (name c) = true /\ trimmed (statement c) = true
  /\ has_tab (statement c) = false.

(** The name and statement a data row contributes, [None] for a row whose
    name is blank. *)
Definition row_texts (row : Z * gmap string string) : option (string * string) :=
  let name := Str.strip (Str.or_empty (row.2 !! "A")) in
  if Str.truthy name
  then Some (name,
             Str.strip (Str.replace_char tab " "%char (Str.or_empty (row.2 !! "C"))))
  else None.

(** The display title of a sheet. *)
Definition display_title (sheet_name : string) : string :=
  default sheet_name (POSITION_NAME_OVERRIDES !! sheet_name).

(** A Position whose title and slug follow from its sheet name. *)
Definition titled (p : Position) : Prop :=
  title p = display_title (sheet p) /\ slug p = slugify (title p).

(** A column key: a non-empty text of alphabetic characters. *)
Definition column_key (k : string) : Prop :=
  k <> "" /\ forallb Str.isalpha (Str.chars k) = true.

(** The row index the Row Reader takes from a row element. *)
Definition declared_row_index (py_int : string -> option Z) (row : Element)
  : option Z :=
  py_int (default "0" (attrib row !! "r")).

(** The integer an anchor declares as its row, [None] when the from-cell has
    no row element, the element has no text, or the text is not an integer. *)
Definition anchor_row (py_int : string -> option Z) (from_cell : Element)
  : option Z :=
  row ← find Tag.xdr_row from_cell;
  row_text ← text row;
  py_int row_text.

(** A relationship element that lacks its [Id] or its [Target]. *)
Definition incomplete_rel (rel : Element) : Prop :=
  attrib rel !! "Id" = None \/ attrib rel !! "Target" = None.

(** A headshot path that names a file directly inside the headshot
    directory. *)
Definition in_headshot_dir (path : string) : Prop :=
  exists file, path = HEADSHOT_DIR ++ "/" ++ file /\ no_slash file = true.

(** A Candidate whose headshot, if any, lies directly inside the headshot
    directory. *)
Definition headshot_placed (c : Candidate) : Prop :=
  forall path, headshot c = Some path -> in_headshot_dir path.

(** A Candidate without a headshot. *)
Definition no_headshot (c : Candidate) : Prop := headshot c = None.

(** ** A reference integer parser and sample packages *)

(** [int] on an optionally signed, non-empty run of ASCII digits. *)
Fixpoint digits_value (l : list ascii) (acc : Z) : option Z :=
  match l with
  | [] => Some acc
  | c :: l' =>
      if Str.in_range 48 57 c
      then digits_value l' (10 * acc + Z.of_N (Str.code c - 48))
      else None
  end.

Definition int_literal (s : string) : option Z :=
  match Str.chars s with
  | [] => None
  | c :: l =>
      if Ascii.eqb c "-"%char then
        match l with [] => None | _ => Z.opp <$> digits_value l 0 end
      else if Ascii.eqb c "+"%char then
        match l with [] => None | _ => digits_value l 0 end
      else digits_value (c :: l) 0
  end.

Module Sample.

Definition el (t : string) (attrs : list (string * string)) (x : option string)
  (cs : list Element) : Element :=
  Elem t (list_to_map attrs) x cs.

Definition relationship (id type target : string) : Element :=
  el Tag.Relationship [("Id", id); ("Type", type); ("Target", target)] None [].

Definition relationships_root (rels : list Element) : Element :=
  el (NS.qname NS.rel "Relationships") [] None rels.

Definition relationships (rels : list Element) : Member :=
  Xml (relationships_root rels).

Definition type_of (kind : string) : string := NS.r ++ "/" ++ kind.

(** A cell [<c r=coord t=ty><v>value</v></c>]. *)
Definition cell (coord : option string) (ty : option string) (value : string) : Element :=
  el Tag.c
     (match coord with Some r => [("r", r)] | None => [] end ++
      match ty with Some t => [("t", t)] | None => [] end)%list
     None [el Tag.v [] (Some value) []].

Definition row (r : option string) (cells : list Element) : Element :=
  el Tag.row (match r with Some i => [("r", i)] | None => [] end) None cells.

Definition worksheet_root (rows : list Element) : Element :=
  el (NS.qname NS.main "worksheet") [] None
     [el (NS.qname NS.main "sheetData") [] None rows].

Definition worksheet (rows : list Element) : Member :=
  Xml (worksheet_root rows).

Definition sheets_element (sheets : list (string * string)) : Element :=
  el Tag.sheets [] None
     (List.map (fun '(n, id) =>
        el (NS.qname NS.main "sheet") [("name", n); (Tag.r_id, id)] None [])
        sheets).

Definition workbook_root (sheets : list (string * string)) : Element :=
  el (NS.qname NS.main "workbook") [] None [sheets_element sheets].

Definition workbook (sheets : list (string * string)) : Member :=
  Xml (workbook_root sheets).

Definition shared_strings (entries : list (list string)) : Member :=
  Xml (el (NS.qname NS.main "sst") [] None
          (List.map (fun runs =>
             el Tag.si [] None
                (List.map (fun run =>
                   el (NS.qname NS.main "r") [] None [el Tag.t [] (Some run) []]) runs))
             entries)).

(** A picture anchored at the zero-based [row], embedding [embed]. *)
Definition anchor (row embed : string) : Element :=
  el (NS.qname NS.xdr "twoCellAnchor") [] None
     [el Tag.from [] None
         [el (NS.qname NS.xdr "col") [] (Some "1") [];
          el Tag.xdr_row [] (Some row) []];
      el Tag.pic [] None
         [el (NS.qname NS.xdr "blipFill") [] None
             [el Tag.blip [(Tag.r_embed, embed)] None []]]].

Definition drawing_root (anchors : list Element) : Element :=
  el (NS.qname NS.xdr "wsDr") [] None anchors.

Definition drawing (anchors : list Element) : Member :=
  Xml (drawing_root anchors).

Definition sheet_name := "Vice President of Internal Affa".

(** One sheet: a header, a row for Alice at grid row 3 and a row with a
    blank name at grid row 4; one picture anchored at zero-based row 2. *)
Definition package : gmap string Member :=
  list_to_map
    [("xl/workbook.xml", workbook [(sheet_name, "rId1")]);
     ("xl/_rels/workbook.xml.rels",
        relationships [relationship "rId1" (type_of "worksheet") "worksheets/sheet1.xml"]);
     ("xl/sharedStrings.xml",
        shared_strings [["Name"]; ["Statement"]; ["Ali"; "ce"]; ["Vote for me"]]);
     ("xl/worksheets/sheet1.xml",
        worksheet
          [row (Some "1") [cell (Some "A1") (Some "s") "0"; cell (Some "C1") (Some "s") "1"];
           row (Some "3") [cell (Some "A3") (Some "s") "2"; cell (Some "C3") (Some "s") "3"];
           row (Some "4") [cell (Some "A4") None "  "; cell (Some "C4") None "ignored"]]);
     ("xl/worksheets/_rels/sheet1.xml.rels",
        relationships [relationship "rId1" (type_of "drawing") "../drawings/drawing1.xml"]);
     ("xl/drawings/drawing1.xml", drawing [anchor "2" "rId1"]);
     ("xl/drawings/_rels/drawing1.xml.rels",
        relationships [relationship "rId1" (type_of "image") "../media/image1.png"]);
     ("xl/media/image1.png", Blob "PNG")].

(** A sheet part whose only row holds a shared-string cell at [A1] with the
    stored index [-1] and a shared-string cell without a coordinate with the
    stored index [7]. *)
Definition stray_index_sheet : gmap string Member :=
  {[ "xl/worksheets/sheet1.xml" :=
       worksheet [row (Some "1") [cell (Some "A1") (Some "s") "-1";
                                   cell None (Some "s") "7"]] ]}.

(** A sheet part whose only row holds a shared-string cell at [B2] with the
    stored index [1]. *)
Definition one_reference_sheet : gmap string Member :=
  {[ "xl/worksheets/sheet1.xml" :=
       worksheet [row (Some "2") [cell (Some "B2") (Some "s") "1"]] ]}.

(** A workbook declaring two sheets; the relationship of the first has an
    empty target. *)
Definition empty_target_package : gmap string Member :=
  list_to_map
    [("xl/workbook.xml", workbook [("General", "rId1"); ("Board", "rId2")]);
     ("xl/_rels/workbook.xml.rels",
        relationships [relationship "rId1" (type_of "worksheet") "";
                       relationship "rId2" (type_of "worksheet") "worksheets/sheet2.xml"])].

(** A workbook declaring three sheets, the second with an unknown
    relationship id. *)
Definition dangling_sheet_package : gmap string Member :=
  list_to_map
    [("xl/workbook.xml",
        workbook [("General", "rId1"); ("Ghost", "rId9"); ("Board", "rId2")]);
     ("xl/_rels/workbook.xml.rels",
        relationships [relationship "rId2" (type_of "worksheet") "worksheets/sheet2.xml";
                       relationship "rId1" (type_of "worksheet") "worksheets/sheet1.xml"])].

(** The relationships of a sheet that declares a hyperlink and two drawings. *)
Definition two_drawing_rels : list Element :=
  [relationship "rId1" (type_of "hyperlink") "http://example.org/";
   relationship "rId2" (type_of "drawing") "../drawings/drawing2.xml";
   relationship "rId3" (type_of "drawing") "../drawings/drawing1.xml"].

Definition two_drawings_package : gmap string Member :=
  {[ "xl/worksheets/_rels/sheet1.xml.rels" := relationships two_drawing_rels ]}.

(** The cells of a data row whose name and statement carry surrounding
    whitespace, the statement also a tab. *)
Definition padded_cells : gmap string string :=
  <["C" := String tab "Vote" ++ String tab "for me "]> (<["A" := " Alice "]> ∅).

(** The cells of a data row with a name and a statement of spaces and tabs. *)
Definition no_statement_cells : gmap string string :=
  <["C" := String tab "  "]> (<["A" := "Bob"]> ∅).

Definition image_rels : Member :=
  relationships [relationship "rId1" (type_of "image") "../media/image1.png";
                 relationship "rId2" (type_of "image") "../media/image2.jpeg"].

(** A drawing whose first and third anchors are both at zero-based row 2. *)
Definition same_row_anchors : list Element :=
  [anchor "2" "rId1"; anchor "5" "rId1"; anchor "2" "rId2"].

Definition same_row_package : gmap string Member :=
  list_to_map
    [("xl/drawings/drawing1.xml", drawing same_row_anchors);
     ("xl/drawings/_rels/drawing1.xml.rels", image_rels)].

(** One sheet with a header row and a data row without a row index; the
    picture of the drawing is anchored at the row given. *)
Definition unnumbered_row_package (anchor_row : string) : gmap string Member :=
  list_to_map
    [("xl/workbook.xml", workbook [("Treasurer", "rId1")]);
     ("xl/_rels/workbook.xml.rels",
        relationships [relationship "rId1" (type_of "worksheet") "worksheets/sheet1.xml"]);
     ("xl/worksheets/sheet1.xml",
        worksheet
          [row (Some "1") [cell (Some "A1") None "Name"; cell (Some "C1") None "Statement"];
           row None [cell (Some "A2") None "Bob"; cell (Some "C2") None "Count on me"]]);
     ("xl/worksheets/_rels/sheet1.xml.rels",
        relationships [relationship "rId1" (type_of "drawing") "../drawings/drawing1.xml"]);
     ("xl/drawings/drawing1.xml", drawing [anchor anchor_row "rId1"]);
     ("xl/drawings/_rels/drawing1.xml.rels", image_rels);
     ("xl/media/image1.png", Blob "PNG")].

(** One sheet that holds a header row and nothing else. *)
Definition header_only_package : gmap string Member :=
  list_to_map
    [("xl/workbook.xml", workbook [("Treasurer", "rId1")]);
     ("xl/_rels/workbook.xml.rels",
        relationships [relationship "rId1" (type_of "worksheet") "worksheets/sheet1.xml"]);
     ("xl/worksheets/sheet1.xml",
        worksheet
          [row (Some "1") [cell (Some "A1") None "Name"; cell (Some "C1") None "Statement"]])].

(** Two sheets: the first without any row, the second with a header row and
    one data row. *)
Definition two_sheet_package : gmap string Member :=
  list_to_map
    [("xl/workbook.xml", workbook [("Secretary", "rId1"); ("Treasurer", "rId2")]);
     ("xl/_rels/workbook.xml.rels",
        relationships [relationship "rId1" (type_of "worksheet") "worksheets/sheet1.xml";
                       relationship "rId2" (type_of "worksheet") "worksheets/sheet2.xml"]);
     ("xl/worksheets/sheet1.xml", worksheet []);
     ("xl/worksheets/sheet2.xml",
        worksheet
          [row (Some "1") [cell (Some "A1") None "Name"; cell (Some "C1") None "Statement"];
           row (Some "2") [cell (Some "A2") None "Bob"; cell (Some "C2") None "Count on me"]])].

(** A shape, not a picture, anchored at the zero-based [row]. *)
Definition shape_anchor (row : string) : Element :=
  el (NS.qname NS.xdr "twoCellAnchor") [] None
     [el Tag.from [] None
         [el (NS.qname NS.xdr "col") [] (Some "1") [];
          el Tag.xdr_row [] (Some row) []];
      el (NS.qname NS.xdr "sp") [] None []].

(** One sheet with a header row and a data row; its drawing holds a shape
    only, so the drawing has no relationship file. *)
Definition shapes_only_package : gmap string Member :=
  list_to_map
    [("xl/workbook.xml", workbook [("Treasurer", "rId1")]);
     ("xl/_rels/workbook.xml.rels",
        relationships [relationship "rId1" (type_of "worksheet") "worksheets/sheet1.xml"]);
     ("xl/worksheets/sheet1.xml",
        worksheet
          [row (Some "1") [cell (Some "A1") None "Name"; cell (Some "C1") None "Statement"];
           row (Some "2") [cell (Some "A2") None "Bob"; cell (Some "C2") None "Count on me"]]);
     ("xl/worksheets/_rels/sheet1.xml.rels",
        relationships [relationship "rId1" (type_of "drawing") "../drawings/drawing1.xml"]);
     ("xl/drawings/drawing1.xml", drawing [shape_anchor "2"])].

(** An anchor with a from-cell position without a row element and a picture
    without a blip. *)
Definition rowless_anchor : Element :=
  el (NS.qname NS.xdr "oneCellAnchor") [] None
     [el Tag.from [] None [el (NS.qname NS.xdr "col") [] (Some "1") []];
      el Tag.pic [] None []].

Definition rowless_package : gmap string Member :=
  list_to_map
    [("xl/drawings/drawing1.xml", drawing [anchor "2" "rId1"; rowless_anchor]);
     ("xl/drawings/_rels/drawing1.xml.rels", image_rels)].

(** A workbook whose sheet relationship has a target that starts with a
    slash. *)
Definition absolute_target_package : gmap string Member :=
  list_to_map
    [("xl/workbook.xml", workbook [("Treasurer", "rId1")]);
     ("xl/_rels/workbook.xml.rels",
        relationships [relationship "rId1" (type_of "worksheet")
                         "/xl/worksheets/sheet1.xml"]);
     ("xl/worksheets/sheet1.xml",
        worksheet
          [row (Some "1") [cell (Some "A1") None "Name"; cell (Some "C1") None "Statement"]])].

End Sample.

(** * Properties *)

(** ** The sample package, end to end *)

Example sample_extraction :
  main int_literal (Some Sample.package)
  = Wrote [mkPosition "Vice President of Internal Affairs"
             "vice-president-of-internal-affairs"
             "Vice President of Internal Affa"
             [mkCandidate "Alice" "Vote for me"
                (Some "assets/headshots/vice-president-of-internal-affairs-alice.png")]].
Proof. vm_compute. reflexivity. Qed.

Example sample_paths :
  rels_path "xl/worksheets/sheet1.xml" = "xl/worksheets/_rels/sheet1.xml.rels"
  /\ Path.normpath (Path.join "xl/worksheets" ["../drawings/drawing1.xml"])
     = "xl/drawings/drawing1.xml"
  /\ Path.normpath "xl/../../a/./b//c/" = "../a/b/c"
  /\ Path.suffix "xl/media/image1.png" = ".png"
  /\ slugify "  --Al!!ice-- B  " = "al-ice-b".
Proof. vm_compute. repeat split. Qed.

(** ** The exception monad and the loops *)

Lemma rbind_Ok {A B} (m : result A) (f : A -> result B) (b : B) :
  rbind m f = Ok b -> exists a, m = Ok a /\ f a = Ok b.
Proof. destruct m as [a|e]; simpl; [eauto | discriminate]. Qed.

Lemma rbind_raises {A B} (m : result A) (f : A -> result B) :
  raises m -> raises (rbind m f).
Proof. intros [e ->]. exists e. reflexivity. Qed.

Lemma rbind_raises_k {A B} (m : result A) (f : A -> result B) :
  (forall a, raises (f a)) -> raises (rbind m f).
Proof. intros H. destruct m as [a|e]; simpl; [apply H | by exists e]. Qed.

Lemma not_raises_Ok {A} (a : A) : ~ raises (Ok a).
Proof. intros [e He]. discriminate. Qed.

Section Loops.
Context {A S : Type} (body : S -> A -> result S).

Lemma for_loop_app (xs ys : list A) (s : S) :
  for_loop body (xs ++ ys)%list s
  = let* s' := for_loop body xs s in for_loop body ys s'.
Proof.
  revert s. induction xs as [|x xs IH]; intros s; simpl; [reflexivity|].
  destruct (body s x) as [s'|e]; simpl; [apply IH | reflexivity].
Qed.

(** An iteration that raises in every state makes the loop raise. *)
Lemma for_loop_raises (xs : list A) (x : A) (s : S) :
  x ∈ xs -> (forall s', raises (body s' x)) -> raises (for_loop body xs s).
Proof.
  intros Hin Hx. revert s.
  induction xs as [|y xs IH]; intros s; [by apply elem_of_nil in Hin|].
  simpl. apply elem_of_cons in Hin as [->|Hin].
  - apply rbind_raises, Hx.
  - apply rbind_raises_k. intros s'. by apply IH.
Qed.

(** Invariants of a loop that ends normally. *)
Lemma for_loop_invariant (P : S -> Prop) (xs : list A) (s s' : S) :
  P s ->
  (forall x t t', x ∈ xs -> P t -> body t x = Ok t' -> P t') ->
  for_loop body xs s = Ok s' -> P s'.
Proof.
  revert s. induction xs as [|x xs IH]; intros s Hs Hstep Hrun; simpl in Hrun.
  - by injection Hrun as <-.
  - apply rbind_Ok in Hrun as (t & Hb & Hrun).
    apply (IH t); [|intros y u u' Hy; apply Hstep; by right|done].
    eapply Hstep; [by left|exact Hs|exact Hb].
Qed.

(** A loop that ends normally went through a state before each element. *)
Lemma for_loop_split (pre : list A) (x : A) (post : list A) (s s' : S) :
  for_loop body (pre ++ x :: post)%list s = Ok s' ->
  exists t u, for_loop body pre s = Ok t /\ body t x = Ok u
              /\ for_loop body post u = Ok s'.
Proof.
  rewrite for_loop_app. intros H.
  apply rbind_Ok in H as (t & Hpre & H). simpl in H.
  apply rbind_Ok in H as (u & Hx & Hpost). eauto.
Qed.

End Loops.

(** ** Row Reader: shared-string references *)

Section RowReader.
Variable py_int : string -> option Z.

Lemma list_index_empty {A} (i : Z) : raises (@list_index A [] i).
Proof.
  unfold list_index. simpl.
  destruct (Z.ltb i 0) eqn:Hi; destruct (_ && _)%bool eqn:Hb;
    try (by eexists); apply andb_true_iff in Hb as [H1 H2]; lia.
Qed.

Lemma list_index_beyond {A} (l : list A) (i : Z) :
  Z.of_nat (length l) <= i -> list_index l i = Raise IndexError.
Proof.
  intros Hi. unfold list_index.
  destruct (Z.ltb i 0) eqn:Hneg; [apply Z.ltb_lt in Hneg; lia|].
  destruct (_ && _)%bool eqn:Hb; [|reflexivity].
  apply andb_true_iff in Hb as [_ H2]. apply Z.ltb_lt in H2. lia.
Qed.

(** A shared-string cell with a value and a column letter cannot be read when
    the table is empty, or when its index lies at or beyond the table's end. *)
Lemma read_cell_shared_raises (shared_strings : list string)
  (cells : gmap string string) (cell value_element : Element) :
  attrib cell !! "t" = Some "s" ->
  find Tag.v cell = Some value_element ->
  Str.filter_chars Str.isalpha (default "" (attrib cell !! "r")) <> "" ->
  shared_strings = [] \/
  (exists i, py_int (Str.or_empty (text value_element)) = Some i
             /\ Z.of_nat (length shared_strings) <= i) ->
  raises (read_cell py_int shared_strings cells cell).
Proof.
  intros Ht Hv Hcol Hidx. unfold read_cell. rewrite Hv, Ht.
  destruct (Str.eqb _ "") eqn:Hc; [by apply String.eqb_eq in Hc|].
  rewrite bool_decide_eq_true_2 by reflexivity.
  apply rbind_raises. unfold int_of_str.
  destruct Hidx as [-> | (i & Hi & Hlen)].
  - destruct (py_int _); simpl; [apply list_index_empty | by eexists].
  - rewrite Hi. simpl. rewrite list_index_beyond by done. by eexists.
Qed.

End RowReader.

(** C4 (as amended).  A cell marked as a shared-string reference that has a
    value element and a column letter makes the Row Reader fail whenever the
    shared-string table is empty, and whenever its stored index is at or
    beyond the length of the table: no row list is returned, so no empty or
    substituted string is produced for it. *)
Theorem read_sheet_rows_shared_index_fatal
  (py_int : string -> option Z) (zip_file : gmap string Member)
  (sheet_path : string) (shared_strings : list string)
  (root row cell value_element : Element) :
  zip_file !! sheet_path = Some (Xml root) ->
  row ∈ findall_desc Tag.row root ->
  cell ∈ findall Tag.c row ->
  attrib cell !! "t" = Some "s" ->
  find Tag.v cell = Some value_element ->
  Str.filter_chars Str.isalpha (default "" (attrib cell !! "r")) <> "" ->
  shared_strings = [] \/
  (exists i, py_int (Str.or_empty (text value_element)) = Some i
             /\ Z.of_nat (length shared_strings) <= i) ->
  raises (read_sheet_rows py_int zip_file sheet_path shared_strings).
Proof.
  intros Hzip Hrow Hcell Ht Hv Hcol Hidx.
  unfold read_sheet_rows, read_xml, zip_read. rewrite Hzip. simpl.
  apply (for_loop_raises _ _ row); [exact Hrow|].
  intros rows. unfold read_row.
  apply rbind_raises_k. intros row_idx.
  apply rbind_raises.
  apply (for_loop_raises _ _ cell); [exact Hcell|].
  intros cells. by eapply read_cell_shared_raises.
Qed.

Lemma read_sheet_rows_shared_index_fatal_witness :
  raises (read_sheet_rows int_literal Sample.one_reference_sheet
            "xl/worksheets/sheet1.xml" ["only"]).
Proof.
  eapply (read_sheet_rows_shared_index_fatal int_literal Sample.one_reference_sheet
            "xl/worksheets/sheet1.xml" ["only"]
            _ (Sample.row (Some "2") [Sample.cell (Some "B2") (Some "s") "1"])
            (Sample.cell (Some "B2") (Some "s") "1")).
  - reflexivity.
  - vm_compute. left.
  - vm_compute. left.
  - reflexivity.
  - reflexivity.
  - vm_compute. discriminate.
  - right. exists 1. split; [reflexivity | simpl; lia].
Defined.

(** C4, the claim as stated fails.  With the one-entry table [["x"]] the
    stored indices [-1] and [7] are both out of range, yet the Row Reader
    returns the row: the first cell reads the last table entry and the cell
    without a column letter is left out. *)
Lemma shared_index_out_of_range_not_fatal :
  int_literal "-1" = Some (-1) /\ int_literal "7" = Some 7 /\
  read_sheet_rows int_literal Sample.stray_index_sheet
    "xl/worksheets/sheet1.xml" ["x"] = Ok [(1, {[ "A" := "x" ]})].
Proof. vm_compute. repeat split. Qed.

(** ** Sheet Target Loader *)

Lemma sheet_targets_body_spec (rel_map : gmap string string)
  (sheets : list (string * string)) (sheet : Element) :
  sheet_targets_body rel_map sheets sheet
  = Ok (sheets ++ option_list (sheet_target rel_map sheet))%list.
Proof.
  unfold sheet_targets_body, sheet_target, resolved_target, get_opt.
  destruct (attrib sheet !! Tag.r_id) as [id|]; simpl;
    [|by rewrite app_nil_r].
  destruct (rel_map !! id) as [target|]; simpl; [|by rewrite app_nil_r].
  destruct (Str.truthy target); simpl; [reflexivity | by rewrite app_nil_r].
Qed.

Lemma sheet_targets_loop_spec (rel_map : gmap string string)
  (declared : list Element) (sheets : list (string * string)) :
  for_loop (sheet_targets_body rel_map) declared sheets
  = Ok (sheets ++ omap (sheet_target rel_map) declared)%list.
Proof.
  revert sheets. induction declared as [|sheet declared IH]; intros sheets; simpl.
  - by rewrite app_nil_r.
  - rewrite sheet_targets_body_spec. simpl. rewrite IH, <- app_assoc.
    by destruct (sheet_target rel_map sheet).
Qed.

(** C8 (as amended).  The Sheet Target Loader returns, in the workbook's
    declared order, exactly the declared sheets whose relationship id is
    bound by the workbook relationship map to a non-empty target; every
    other declared sheet is left out and the loader still returns. *)
Theorem load_sheet_targets_resolved
  (zip_file : gmap string Member) (workbook rel_root sheets_element : Element)
  (rel_map : gmap string string) :
  zip_file !! "xl/workbook.xml" = Some (Xml workbook) ->
  zip_file !! "xl/_rels/workbook.xml.rels" = Some (Xml rel_root) ->
  build_rel_map (fun target => target) (findall Tag.Relationship rel_root) = Ok rel_map ->
  find Tag.sheets workbook = Some sheets_element ->
  load_sheet_targets zip_file
  = Ok (omap (sheet_target rel_map) (children sheets_element)).
Proof.
  intros Hwb Hrels Hmap Hsheets.
  unfold load_sheet_targets, read_xml, zip_read.
  rewrite Hwb, Hrels. simpl. rewrite Hmap. simpl. rewrite Hsheets.
  apply sheet_targets_loop_spec.
Qed.

Lemma load_sheet_targets_resolved_witness :
  load_sheet_targets Sample.dangling_sheet_package
  = Ok [("General", "xl/worksheets/sheet1.xml"); ("Board", "xl/worksheets/sheet2.xml")].
Proof.
  rewrite (load_sheet_targets_resolved Sample.dangling_sheet_package
             (Sample.workbook_root
                [("General", "rId1"); ("Ghost", "rId9"); ("Board", "rId2")])
             (Sample.relationships_root
                [Sample.relationship "rId2" (Sample.type_of "worksheet") "worksheets/sheet2.xml";
                 Sample.relationship "rId1" (Sample.type_of "worksheet") "worksheets/sheet1.xml"])
             (Sample.sheets_element
                [("General", "rId1"); ("Ghost", "rId9"); ("Board", "rId2")])
             (<["rId1" := "worksheets/sheet1.xml"]>
                (<["rId2" := "worksheets/sheet2.xml"]> ∅))).
  - vm_compute. reflexivity.
  - vm_compute. reflexivity.
  - vm_compute. reflexivity.
  - vm_compute. reflexivity.
  - vm_compute. reflexivity.
Defined.

(** C8, the claim as stated fails.  The relationship id of the sheet
    "General" resolves in the workbook relationship map, to the empty target,
    and the loader leaves the sheet out. *)
Lemma sheet_with_empty_target_omitted :
  (let* rel_map :=
     build_rel_map (fun target => target)
       [Sample.relationship "rId1" (Sample.type_of "worksheet") "";
        Sample.relationship "rId2" (Sample.type_of "worksheet") "worksheets/sheet2.xml"] in
   Ok (rel_map !! "rId1")) = Ok (Some "")
  /\ load_sheet_targets Sample.empty_target_package
     = Ok [("Board", "xl/worksheets/sheet2.xml")].
Proof. vm_compute. split; reflexivity. Qed.

(** ** Drawing Locator *)

Lemma find_drawing_loop_first (sheet_path : string) (pre : list Element)
  (rel : Element) (post : list Element) (target : string) :
  Forall (fun x => is_drawing_rel x = false) pre ->
  is_drawing_rel rel = true ->
  attrib rel !! "Target" = Some target ->
  find_drawing_loop sheet_path (pre ++ rel :: post)%list
  = Ok (Some (Path.normpath (Path.join (Path.dirname sheet_path) [target]))).
Proof.
  intros Hpre Hrel Htarget. induction Hpre as [|x pre Hx _ IH]; simpl.
  - unfold is_drawing_rel in Hrel. rewrite Hrel.
    unfold getitem. rewrite Htarget. reflexivity.
  - unfold is_drawing_rel in Hx. rewrite Hx. exact IH.
Qed.

(** C10.  When the relationship file of a sheet declares relationships whose
    type ends in "/drawing", the Drawing Locator returns the normalized
    target of the first of them in document order, whatever relationships
    follow it. *)
Theorem find_drawing_path_first
  (zip_file : gmap string Member) (sheet_path : string) (rel_root : Element)
  (pre : list Element) (rel : Element) (post : list Element) (target : string) :
  zip_file !! rels_path sheet_path = Some (Xml rel_root) ->
  findall Tag.Relationship rel_root = (pre ++ rel :: post)%list ->
  Forall (fun x => is_drawing_rel x = false) pre ->
  is_drawing_rel rel = true ->
  attrib rel !! "Target" = Some target ->
  find_drawing_path zip_file sheet_path
  = Ok (Some (Path.normpath (Path.join (Path.dirname sheet_path) [target]))).
Proof.
  intros Hzip Hrels Hpre Hrel Htarget.
  unfold find_drawing_path, in_namelist, read_xml, zip_read.
  rewrite Hzip. rewrite bool_decide_eq_true_2 by eauto. simpl.
  rewrite Hrels. by apply find_drawing_loop_first.
Qed.

Lemma find_drawing_path_first_witness :
  find_drawing_path Sample.two_drawings_package "xl/worksheets/sheet1.xml"
  = Ok (Some "xl/drawings/drawing2.xml").
Proof.
  apply (find_drawing_path_first Sample.two_drawings_package
           "xl/worksheets/sheet1.xml"
           (Sample.relationships_root Sample.two_drawing_rels)
           [Sample.relationship "rId1" (Sample.type_of "hyperlink") "http://example.org/"]
           (Sample.relationship "rId2" (Sample.type_of "drawing") "../drawings/drawing2.xml")
           [Sample.relationship "rId3" (Sample.type_of "drawing") "../drawings/drawing1.xml"]
           "../drawings/drawing2.xml").
  - vm_compute. reflexivity.
  - vm_compute. reflexivity.
  - repeat constructor.
  - vm_compute. reflexivity.
  - vm_compute. reflexivity.
Defined.

(** ** Text: [strip] and [replace] *)

Lemma of_chars_chars (s : string) : Str.of_chars (Str.chars s) = s.
Proof. apply string_of_list_ascii_of_string. Qed.

Lemma chars_of_chars (l : list ascii) : Str.chars (Str.of_chars l) = l.
Proof. apply list_ascii_of_string_of_list_ascii. Qed.

Lemma of_chars_nil_iff (l : list ascii) : Str.of_chars l = "" <-> l = [].
Proof.
  split; [|by intros ->]. intros H.
  rewrite <- (chars_of_chars l), H. reflexivity.
Qed.

Lemma truthy_false_iff (s : string) : Str.truthy s = false <-> s = "".
Proof.
  unfold Str.truthy. rewrite negb_false_iff. apply String.eqb_eq.
Qed.

Lemma truthy_true_iff (s : string) : Str.truthy s = true <-> s <> "".
Proof.
  unfold Str.truthy. rewrite negb_true_iff. apply String.eqb_neq.
Qed.

Section DropWhile.
Variable p : ascii -> bool.

Lemma drop_while_nil_iff (l : list ascii) :
  Str.drop_while p l = [] <-> forallb p l = true.
Proof.
  induction l as [|c l IH]; simpl; [done|].
  destruct (p c); simpl; [exact IH | split; discriminate].
Qed.

Lemma drop_while_head (l : list ascii) (c : ascii) (l' : list ascii) :
  Str.drop_while p l = c :: l' -> p c = false.
Proof.
  induction l as [|d l IH]; simpl; [discriminate|].
  destruct (p d) eqn:Hd; [exact IH | intros [= <- _]; exact Hd].
Qed.

Lemma forallb_rev (l : list ascii) : forallb p (rev l) = forallb p l.
Proof.
  induction l as [|c l IH]; simpl; [reflexivity|].
  rewrite forallb_app, IH. simpl. rewrite andb_true_r. apply andb_comm.
Qed.

Lemma strip_by_nil_iff (l : list ascii) :
  Str.strip_by p l = [] <-> forallb p l = true.
Proof.
  unfold Str.strip_by, Str.rstrip_by, Str.lstrip_by. split.
  - intros H. apply (f_equal (@rev ascii)) in H. rewrite rev_involutive in H.
    simpl in H. apply drop_while_nil_iff in H. rewrite forallb_rev in H.
    destruct (Str.drop_while p l) as [|c l'] eqn:Hd; [by apply drop_while_nil_iff|].
    apply drop_while_head in Hd. simpl in H. rewrite Hd in H. discriminate.
  - intros H. apply drop_while_nil_iff in H. rewrite H. reflexivity.
Qed.

Lemma strip_by_fixed (l : list ascii) :
  match l with [] => true | c :: _ => negb (p c) end = true ->
  match rev l with [] => true | c :: _ => negb (p c) end = true ->
  Str.strip_by p l = l.
Proof.
  intros Hfirst Hlast. unfold Str.strip_by, Str.rstrip_by, Str.lstrip_by.
  assert (Hdrop : forall k, match k with [] => true | c :: _ => negb (p c) end = true ->
                            Str.drop_while p k = k).
  { intros [|c k] Hk; simpl; [reflexivity|].
    apply negb_true_iff in Hk. by rewrite Hk. }
  rewrite (Hdrop l Hfirst), (Hdrop (rev l) Hlast). apply rev_involutive.
Qed.

End DropWhile.

Lemma strip_empty_iff (s : string) : Str.strip s = "" <-> blank s = true.
Proof.
  unfold Str.strip, blank. rewrite of_chars_nil_iff. apply strip_by_nil_iff.
Qed.

Lemma strip_trimmed (s : string) : trimmed s = true -> Str.strip s = s.
Proof.
  unfold trimmed, Str.strip. intros H. apply andb_true_iff in H as [H1 H2].
  rewrite strip_by_fixed by done. apply of_chars_chars.
Qed.

Lemma replace_tab_none (s : string) :
  has_tab s = false -> Str.replace_char tab " "%char s = s.
Proof.
  unfold has_tab, Str.replace_char. intros H.
  rewrite <- (of_chars_chars s) at 2. f_equal.
  induction (Str.chars s) as [|c l IH]; simpl in *; [reflexivity|].
  apply orb_false_iff in H as [Hc Hl]. rewrite Hc, IH by done. reflexivity.
Qed.

Lemma replace_tab_blank (s : string) :
  blank s = true -> blank (Str.replace_char tab " "%char s) = true.
Proof.
  unfold blank, Str.replace_char. rewrite chars_of_chars.
  induction (Str.chars s) as [|c l IH]; simpl; [done|].
  intros H. apply andb_true_iff in H as [Hc Hl]. rewrite IH by done.
  destruct (Ascii.eqb c tab); [reflexivity | by rewrite Hc].
Qed.

(** ** Extraction Orchestrator: one data row *)

Section DataRow.
Variables (zip_file : gmap string Member) (display_name : string)
          (row_image_map : gmap Z string) (candidates : list Candidate)
          (row_idx : Z) (cells : gmap string string).

Lemma candidate_body_blank :
  blank (Str.or_empty (cells !! "A")) = true ->
  candidate_body zip_file display_name row_image_map candidates (row_idx, cells)
  = Ok candidates.
Proof.
  intros H. apply strip_empty_iff in H. unfold candidate_body.
  rewrite H. reflexivity.
Qed.

(** What a row with a non-blank name appends when the loop body returns. *)
Lemma candidate_body_named (candidates' : list Candidate) :
  blank (Str.or_empty (cells !! "A")) = false ->
  candidate_body zip_file display_name row_image_map candidates (row_idx, cells)
  = Ok candidates' ->
  exists headshot_path,
    candidates' =
      (candidates ++
       [mkCandidate
          (Str.strip (Str.or_empty (cells !! "A")))
          (Str.strip (Str.replace_char tab " "%char (Str.or_empty (cells !! "C"))))
          headshot_path])%list
    /\ (is_Some headshot_path <->
        exists rel, row_image_map !! row_idx = Some rel /\ Str.truthy rel = true).
Proof.
  intros Hname Hrun. unfold candidate_body in Hrun.
  destruct (Str.truthy (Str.strip _)) eqn:Ht; cbn [negb] in Hrun.
  2:{ apply truthy_false_iff, strip_empty_iff in Ht. congruence. }
  apply rbind_Ok in Hrun as (h & Hh & Hrun). injection Hrun as <-.
  exists h. split; [reflexivity|].
  destruct (row_image_map !! row_idx) as [rel|].
  - destruct (Str.truthy rel) eqn:Hrel.
    + apply rbind_Ok in Hh as (_ & _ & Hh). split.
      * intros _. exists rel. split; [reflexivity | exact Hrel].
      * intros _. destruct h; [eexists; reflexivity | discriminate].
    + injection Hh as <-. split; [by intros [? ?]|].
      intros (rel' & [= <-] & Htrue). congruence.
  - injection Hh as <-. split; [by intros [? ?]|]. by intros (? & ? & _).
Qed.

(** The loop body returns when the anchored image can be read. *)
Lemma candidate_body_returns :
  image_readable zip_file row_image_map row_idx ->
  exists candidates',
    candidate_body zip_file display_name row_image_map candidates (row_idx, cells)
    = Ok candidates'.
Proof.
  intros Himg. unfold candidate_body.
  destruct (negb _); [eauto|].
  destruct (row_image_map !! row_idx) as [rel|] eqn:Hrel; cbn [rbind]; [|eauto].
  destruct (Str.truthy rel) eqn:Ht; cbn [rbind]; [|eauto].
  destruct (Himg rel Hrel Ht) as [m Hm].
  unfold zip_read. rewrite Hm. cbn [rbind]. eauto.
Qed.

End DataRow.

(** C3 (as amended).  The Candidate built from a data row with a non-blank
    name carries the name-cell text with the whitespace at its ends removed,
    and the statement-cell text with every tab replaced by a space and the
    whitespace at its ends removed.  A name without whitespace at its ends,
    and a statement without tabs and without whitespace at its ends, are
    carried character for character. *)
Theorem candidate_text_normalized
  (zip_file : gmap string Member) (display_name : string)
  (row_image_map : gmap Z string) (candidates candidates' : list Candidate)
  (row_idx : Z) (cells : gmap string string) :
  let name_text := Str.or_empty (cells !! "A") in
  let statement_text := Str.or_empty (cells !! "C") in
  blank name_text = false ->
  candidate_body zip_file display_name row_image_map candidates (row_idx, cells)
  = Ok candidates' ->
  exists c,
    candidates' = (candidates ++ [c])%list
    /\ name c = Str.strip name_text
    /\ statement c = Str.strip (Str.replace_char tab " "%char statement_text)
    /\ (trimmed name_text = true -> name c = name_text)
    /\ (trimmed statement_text = true -> has_tab statement_text = false ->
        statement c = statement_text).
Proof.
  intros name_text statement_text Hname Hrun.
  destruct (candidate_body_named _ _ _ _ _ _ _ Hname Hrun) as (h & -> & _).
  eexists. split; [reflexivity|]. simpl. repeat split.
  - intros Ht. by apply strip_trimmed.
  - intros Ht Hnotab. fold statement_text.
    rewrite replace_tab_none by done. by apply strip_trimmed.
Qed.

Lemma candidate_text_normalized_witness :
  exists c,
    [mkCandidate "Bob" "" None] = ([] ++ [c])%list
    /\ name c = Str.strip "Bob"
    /\ statement c = Str.strip (Str.replace_char tab " "%char (String tab "  "))
    /\ (trimmed "Bob" = true -> name c = "Bob")
    /\ (trimmed (String tab "  ") = true -> has_tab (String tab "  ") = false ->
        statement c = String tab "  ").
Proof.
  apply (candidate_text_normalized ∅ "Treasurer" ∅ [] [mkCandidate "Bob" "" None]
           5 Sample.no_statement_cells).
  - vm_compute. reflexivity.
  - vm_compute. reflexivity.
Defined.

(** C3, the claim as stated fails.  The name cell [" Alice "] and the
    statement cell with a leading tab, an inner tab and a trailing space
    yield a Candidate whose texts differ from both cells. *)
Lemma candidate_text_not_verbatim :
  Sample.padded_cells !! "A" = Some " Alice " /\
  Sample.padded_cells !! "C" = Some (String tab "Vote" ++ String tab "for me ") /\
  candidate_body ∅ "Treasurer" ∅ [] (2, Sample.padded_cells)
  = Ok [mkCandidate "Alice" "Vote for me" None].
Proof. vm_compute. repeat split. Qed.

(** ** Extraction Orchestrator: names are never empty *)

Lemma candidate_body_keeps_named
  (zip_file : gmap string Member) (display_name : string)
  (row_image_map : gmap Z string) (candidates candidates' : list Candidate)
  (row : Z * gmap string string) :
  Forall named candidates ->
  candidate_body zip_file display_name row_image_map candidates row = Ok candidates' ->
  Forall named candidates'.
Proof.
  destruct row as [row_idx cells]. intros Hall Hrun.
  destruct (blank (Str.or_empty (cells !! "A"))) eqn:Hb.
  - rewrite candidate_body_blank in Hrun by done. by injection Hrun as <-.
  - destruct (candidate_body_named _ _ _ _ _ _ _ Hb Hrun) as (h & -> & _).
    apply Forall_app. split; [done|]. constructor; [|constructor].
    unfold named. simpl. rewrite strip_empty_iff. congruence.
Qed.

Lemma position_body_keeps_named (py_int : string -> option Z)
  (zip_file : gmap string Member) (shared_strings : list string)
  (positions positions' : list Position) (target : string * string) :
  Forall (fun p => Forall named (candidates p)) positions ->
  position_body py_int zip_file shared_strings positions target = Ok positions' ->
  Forall (fun p => Forall named (candidates p)) positions'.
Proof.
  destruct target as [sheet_name sheet_path]. intros Hall Hrun.
  unfold position_body in Hrun.
  apply rbind_Ok in Hrun as (drawing_path & _ & Hrun).
  apply rbind_Ok in Hrun as (row_image_map & _ & Hrun).
  apply rbind_Ok in Hrun as (rows & _ & Hrun).
  destruct rows as [|header data_rows]; [by injection Hrun as <-|].
  apply rbind_Ok in Hrun as (cs & Hcs & Hrun). injection Hrun as <-.
  apply Forall_app. split; [done|]. constructor; [|constructor]. simpl.
  eapply (for_loop_invariant _ (Forall named)); [constructor| |exact Hcs].
  intros row t t' _. apply candidate_body_keeps_named.
Qed.

(** C6.  No Candidate with an empty name appears in the output; a data row
    whose name-column text is empty or whitespace-only adds no Candidate;
    and a data row with a non-blank name and a blank statement cell adds a
    Candidate whose statement is the empty string (the image anchored at the
    row, if there is one, being readable from the package). *)
Theorem blank_name_rows_dropped (py_int : string -> option Z)
  (zip_file : gmap string Member) :
  (forall positions p c,
     extract py_int zip_file = Ok positions ->
     p ∈ positions -> c ∈ candidates p -> name c <> "")
  /\ (forall display_name row_image_map candidates row_idx cells,
        blank (Str.or_empty (cells !! "A")) = true ->
        candidate_body zip_file display_name row_image_map candidates (row_idx, cells)
        = Ok candidates)
  /\ (forall display_name row_image_map candidates row_idx cells,
        blank (Str.or_empty (cells !! "A")) = false ->
        blank (Str.or_empty (cells !! "C")) = true ->
        image_readable zip_file row_image_map row_idx ->
        exists c,
          candidate_body zip_file display_name row_image_map candidates (row_idx, cells)
          = Ok (candidates ++ [c])%list
          /\ name c <> "" /\ statement c = "").
Proof.
  split; [|split].
  - intros positions p c Hrun Hp Hc. unfold extract in Hrun.
    apply rbind_Ok in Hrun as (shared_strings & _ & Hrun).
    apply rbind_Ok in Hrun as (sheet_targets & _ & Hrun).
    assert (Hall : Forall (fun p => Forall named (candidates p)) positions).
    { eapply (for_loop_invariant _ (Forall (fun p => Forall named (candidates p))));
        [constructor| |exact Hrun].
      intros target t t' _. apply position_body_keeps_named. }
    rewrite Forall_forall in Hall. specialize (Hall p Hp).
    rewrite Forall_forall in Hall. exact (Hall c Hc).
  - intros. by apply candidate_body_blank.
  - intros display_name row_image_map candidates row_idx cells Hname Hstmt Himg.
    destruct (candidate_body_returns zip_file display_name row_image_map candidates
                row_idx cells Himg) as (candidates' & Hrun).
    destruct (candidate_body_named _ _ _ _ _ _ _ Hname Hrun) as (h & -> & _).
    eexists. split; [exact Hrun|]. simpl. split.
    + rewrite strip_empty_iff. congruence.
    + apply strip_empty_iff. by apply replace_tab_blank.
Qed.

Lemma blank_name_rows_dropped_witness :
  (forall p c, p ∈ [mkPosition "Vice President of Internal Affairs"
                      "vice-president-of-internal-affairs"
                      "Vice President of Internal Affa"
                      [mkCandidate "Alice" "Vote for me"
                         (Some "assets/headshots/vice-president-of-internal-affairs-alice.png")]] ->
               c ∈ candidates p -> name c <> "")
  /\ candidate_body Sample.package "Treasurer" ∅ [] (4, <["A" := "  "]> ∅) = Ok []
  /\ exists c, candidate_body Sample.package "Treasurer" ∅ []
                 (5, Sample.no_statement_cells) = Ok ([] ++ [c])%list
               /\ name c <> "" /\ statement c = "".
Proof.
  destruct (blank_name_rows_dropped int_literal Sample.package) as (H1 & H2 & H3).
  split; [|split].
  - intros p c. apply H1. vm_compute. reflexivity.
  - apply H2. vm_compute. reflexivity.
  - apply H3.
    + vm_compute. reflexivity.
    + vm_compute. reflexivity.
    + intros rel Hrel. vm_compute in Hrel. discriminate.
Defined.

(** ** Anchor Mapper *)

Section AnchorBody.
Variables (py_int : string -> option Z) (rel_map : gmap string string).

(** A contributing anchor stores its image under its row plus one. *)
Lemma anchor_body_picture (anchors : gmap Z string) (anchor : Element)
  (r : Z) (image_path : string) :
  anchor_picture py_int rel_map anchor = Some (r, image_path) ->
  anchor_body py_int rel_map anchors anchor = Ok (<[r + 1 := image_path]> anchors).
Proof.
  unfold anchor_picture, anchor_body, int_of_text, int_of_str, get_opt. intros H.
  destruct (find Tag.from anchor) as [from_cell|]; simpl in H; [|discriminate H].
  destruct (find Tag.pic anchor) as [pic|]; simpl in H; [|discriminate H].
  destruct (find Tag.xdr_row from_cell) as [row|]; simpl in H; [|discriminate H].
  destruct (text row) as [row_text|]; simpl in H; [|discriminate H].
  destruct (py_int row_text) as [z|]; simpl in H; [|discriminate H].
  cbn [rbind].
  destruct (find_desc Tag.blip pic) as [blip|]; simpl in H; [|discriminate H].
  destruct (attrib blip !! Tag.r_embed) as [embed_id|]; simpl in H; [|discriminate H].
  destruct (rel_map !! embed_id) as [image|]; simpl in H; [|discriminate H].
  destruct (Str.truthy image); cbn [negb]; [|discriminate H].
  by injection H as -> ->.
Qed.

(** Any other anchor that does not raise leaves the map as it is. *)
Lemma anchor_body_skip (anchors anchors' : gmap Z string) (anchor : Element) :
  anchor_picture py_int rel_map anchor = None ->
  anchor_body py_int rel_map anchors anchor = Ok anchors' ->
  anchors' = anchors.
Proof.
  unfold anchor_picture, anchor_body, int_of_text, int_of_str, get_opt. intros H Hrun.
  destruct (find Tag.from anchor) as [from_cell|]; simpl in H; [|congruence].
  destruct (find Tag.pic anchor) as [pic|]; simpl in H; [|congruence].
  destruct (find Tag.xdr_row from_cell) as [row|]; simpl in H; [|discriminate Hrun].
  destruct (text row) as [row_text|]; simpl in H; [|discriminate Hrun].
  destruct (py_int row_text) as [z|]; simpl in H; [|discriminate Hrun].
  cbn [rbind] in Hrun.
  destruct (find_desc Tag.blip pic) as [blip|]; simpl in H; [|congruence].
  destruct (attrib blip !! Tag.r_embed) as [embed_id|]; simpl in H; [|congruence].
  destruct (rel_map !! embed_id) as [image|]; simpl in H; [|congruence].
  destruct (Str.truthy image); cbn [negb] in Hrun; [discriminate H | congruence].
Qed.
Lemma anchor_body_spec (anchors anchors' : gmap Z string) (anchor : Element) :
  anchor_body py_int rel_map anchors anchor = Ok anchors' ->
  anchors' = match anchor_picture py_int rel_map anchor with
             | Some (r, image_path) => <[r + 1 := image_path]> anchors
             | None => anchors
             end.
Proof.
  intros Hrun. destruct (anchor_picture py_int rel_map anchor) as [[r image]|] eqn:Hp.
  - rewrite (anchor_body_picture anchors anchor r image Hp) in Hrun. congruence.
  - by eapply anchor_body_skip.
Qed.

Lemma anchor_picture_truthy (anchor : Element) (r : Z) (image_path : string) :
  anchor_picture py_int rel_map anchor = Some (r, image_path) ->
  Str.truthy image_path = true.
Proof.
  unfold anchor_picture. intros H.
  destruct (find Tag.from anchor) as [from_cell|]; simpl in H; [|discriminate H].
  destruct (find Tag.pic anchor) as [pic|]; simpl in H; [|discriminate H].
  destruct (find Tag.xdr_row from_cell) as [row|]; simpl in H; [|discriminate H].
  destruct (text row) as [row_text|]; simpl in H; [|discriminate H].
  destruct (py_int row_text) as [z|]; simpl in H; [|discriminate H].
  destruct (find_desc Tag.blip pic) as [blip|]; simpl in H; [|discriminate H].
  destruct (attrib blip !! Tag.r_embed) as [embed_id|]; simpl in H; [|discriminate H].
  destruct (rel_map !! embed_id) as [image|]; simpl in H; [|discriminate H].
  destruct (Str.truthy image) eqn:Ht; [|discriminate H]. by injection H as _ <-.
Qed.

(** Anchors that contribute nothing at row [r] leave the entry of [r + 1]. *)
Lemma anchors_loop_untouched (post : list Element) (anchors m : gmap Z string) (r : Z) :
  (forall a image, a ∈ post -> anchor_picture py_int rel_map a <> Some (r, image)) ->
  for_loop (anchor_body py_int rel_map) post anchors = Ok m ->
  m !! (r + 1) = anchors !! (r + 1).
Proof.
  intros Hpost Hrun.
  apply (for_loop_invariant (anchor_body py_int rel_map)
           (fun t => t !! (r + 1) = anchors !! (r + 1)) post anchors m);
    [reflexivity| |exact Hrun].
  intros a t t' Ha Ht Hbody. apply anchor_body_spec in Hbody. subst t'.
  destruct (anchor_picture py_int rel_map a) as [[r' image]|] eqn:Hp; [|exact Ht].
  rewrite lookup_insert_ne; [exact Ht|].
  intros Heq. assert (r' = r) as -> by lia. by apply (Hpost a image).
Qed.

(** An entry, once present, stays present. *)
Lemma anchors_loop_keeps_keys (post : list Element) (anchors m : gmap Z string) (k : Z) :
  is_Some (anchors !! k) ->
  for_loop (anchor_body py_int rel_map) post anchors = Ok m ->
  is_Some (m !! k).
Proof.
  intros Hk Hrun.
  apply (for_loop_invariant (anchor_body py_int rel_map)
           (fun t => is_Some (t !! k)) post anchors m); [exact Hk| |exact Hrun].
  intros a t t' _ Ht Hbody. apply anchor_body_spec in Hbody. subst t'.
  destruct (anchor_picture py_int rel_map a) as [[r' image]|]; [|exact Ht].
  destruct (decide (r' + 1 = k)) as [->|Hne].
  - rewrite lookup_insert_eq. eauto.
  - by rewrite lookup_insert_ne.
Qed.

(** Every entry of the map comes from a contributing anchor. *)
Lemma anchors_loop_entries (anchor_list : list Element) (m : gmap Z string) :
  for_loop (anchor_body py_int rel_map) anchor_list ∅ = Ok m ->
  forall k image, m !! k = Some image ->
    exists a, a ∈ anchor_list /\ anchor_picture py_int rel_map a = Some (k - 1, image).
Proof.
  intros Hrun.
  apply (for_loop_invariant (anchor_body py_int rel_map)
           (fun t => forall k image, t !! k = Some image ->
              exists a, a ∈ anchor_list
                        /\ anchor_picture py_int rel_map a = Some (k - 1, image))
           anchor_list ∅ m); [|  |exact Hrun].
  - intros k image Hk. by rewrite lookup_empty in Hk.
  - intros a t t' Ha Ht Hbody. apply anchor_body_spec in Hbody. subst t'.
    destruct (anchor_picture py_int rel_map a) as [[r' image']|] eqn:Hp; [|exact Ht].
    intros k image Hk. destruct (decide (r' + 1 = k)) as [<-|Hne].
    + rewrite lookup_insert_eq in Hk. injection Hk as <-.
      exists a. split; [exact Ha|]. rewrite Hp. do 2 f_equal. lia.
    + rewrite lookup_insert_ne in Hk by done. by apply Ht.
Qed.

(** The last anchor contributing at a row decides the entry of that row. *)
Lemma anchors_loop_last (pre : list Element) (anchor : Element)
  (post : list Element) (m : gmap Z string) (r : Z) (image_path : string) :
  anchor_picture py_int rel_map anchor = Some (r, image_path) ->
  (forall a image, a ∈ post -> anchor_picture py_int rel_map a <> Some (r, image)) ->
  for_loop (anchor_body py_int rel_map) (pre ++ anchor :: post)%list ∅ = Ok m ->
  m !! (r + 1) = Some image_path.
Proof.
  intros Hp Hpost Hrun.
  apply for_loop_split in Hrun as (t & u & _ & Hbody & Hrest).
  rewrite (anchor_body_picture t anchor r image_path Hp) in Hbody.
  injection Hbody as <-.
  rewrite (anchors_loop_untouched post _ m r Hpost Hrest).
  apply lookup_insert_eq.
Qed.

End AnchorBody.
Section AnchorMapper.
Variables (py_int : string -> option Z) (zip_file : gmap string Member)
          (drawing_path : string) (rel_root drawing : Element)
          (rel_map : gmap string string).
Hypothesis rels_present : zip_file !! rels_path drawing_path = Some (Xml rel_root).
Hypothesis rels_read :
  build_rel_map
    (fun target => Path.normpath (Path.join (Path.dirname drawing_path) [target]))
    (findall Tag.Relationship rel_root) = Ok rel_map.
Hypothesis drawing_present : zip_file !! drawing_path = Some (Xml drawing).

Lemma map_anchor_rows_to_images_loop :
  map_anchor_rows_to_images py_int zip_file drawing_path
  = for_loop (anchor_body py_int rel_map) (children drawing) ∅.
Proof.
  unfold map_anchor_rows_to_images, read_xml, zip_read.
  rewrite rels_present. cbn [rbind fromstring]. rewrite rels_read. cbn [rbind].
  rewrite drawing_present. reflexivity.
Qed.

(** Every image path of the anchor map is a non-empty string. *)
Lemma anchor_map_truthy (m : gmap Z string) (k : Z) (image_path : string) :
  map_anchor_rows_to_images py_int zip_file drawing_path = Ok m ->
  m !! k = Some image_path -> Str.truthy image_path = true.
Proof.
  rewrite map_anchor_rows_to_images_loop. intros Hrun Hk.
  destruct (anchors_loop_entries py_int rel_map _ m Hrun k image_path Hk)
    as (a & _ & Ha).
  by eapply anchor_picture_truthy.
Qed.

End AnchorMapper.

(** C5.  An anchor that declares a from-cell position and contains a picture
    whose embed reference resolves is recorded under its zero-based row plus
    one: processing it stores its image under that key, the returned map has
    an entry under that key, which is this image unless a later anchor
    contributes at the same row, and a data row of that 1-based index with a
    non-blank name gets a headshot. *)
Theorem anchor_recorded_at_row_plus_one
  (py_int : string -> option Z) (zip_file : gmap string Member)
  (drawing_path : string) (rel_root drawing : Element)
  (rel_map : gmap string string)
  (pre : list Element) (anchor : Element) (post : list Element)
  (r : Z) (image_path : string) (m : gmap Z string) :
  zip_file !! rels_path drawing_path = Some (Xml rel_root) ->
  build_rel_map
    (fun target => Path.normpath (Path.join (Path.dirname drawing_path) [target]))
    (findall Tag.Relationship rel_root) = Ok rel_map ->
  zip_file !! drawing_path = Some (Xml drawing) ->
  children drawing = (pre ++ anchor :: post)%list ->
  anchor_picture py_int rel_map anchor = Some (r, image_path) ->
  map_anchor_rows_to_images py_int zip_file drawing_path = Ok m ->
  (exists before,
     for_loop (anchor_body py_int rel_map) pre ∅ = Ok before
     /\ for_loop (anchor_body py_int rel_map) (pre ++ [anchor])%list ∅
        = Ok (<[r + 1 := image_path]> before))
  /\ is_Some (m !! (r + 1))
  /\ ((forall a image, a ∈ post -> anchor_picture py_int rel_map a <> Some (r, image)) ->
      m !! (r + 1) = Some image_path)
  /\ (forall display_name candidates candidates' cells,
        blank (Str.or_empty (cells !! "A")) = false ->
        candidate_body zip_file display_name m candidates (r + 1, cells)
        = Ok candidates' ->
        exists c, candidates' = (candidates ++ [c])%list /\ is_Some (headshot c)).
Proof.
  intros Hrels Hmap Hdrawing Hchildren Hpic Hrun.
  pose proof Hrun as Hloop.
  rewrite (map_anchor_rows_to_images_loop py_int zip_file drawing_path rel_root
             drawing rel_map Hrels Hmap Hdrawing), Hchildren in Hloop.
  destruct (for_loop_split _ _ _ _ _ _ Hloop) as (before & u & Hpre & Hbody & Hpost).
  rewrite (anchor_body_picture py_int rel_map before anchor r image_path Hpic) in Hbody.
  injection Hbody as <-.
  assert (Hkey : is_Some (m !! (r + 1))).
  { eapply anchors_loop_keeps_keys; [|exact Hpost]. rewrite lookup_insert_eq. eauto. }
  split; [|split; [exact Hkey|split]].
  - exists before. split; [exact Hpre|].
    rewrite for_loop_app, Hpre. cbn [rbind for_loop].
    rewrite (anchor_body_picture py_int rel_map before anchor r image_path Hpic).
    reflexivity.
  - intros Hlast. eapply anchors_loop_last; [exact Hpic|exact Hlast|exact Hloop].
  - intros display_name candidates candidates' cells Hname Hcand.
    destruct (candidate_body_named _ _ _ _ _ _ _ Hname Hcand) as (h & -> & Hh).
    eexists. split; [reflexivity|]. cbn [headshot]. apply Hh.
    destruct Hkey as [image Himage]. exists image. split; [exact Himage|].
    eapply anchor_map_truthy; eauto.
Qed.

Lemma anchor_recorded_at_row_plus_one_witness :
  exists m,
    map_anchor_rows_to_images int_literal Sample.package "xl/drawings/drawing1.xml" = Ok m
    /\ m !! (2 + 1) = Some "xl/media/image1.png"
    /\ exists c,
         [mkCandidate "Alice" ""
            (Some "assets/headshots/treasurer-alice.png")] = ([] ++ [c])%list
         /\ is_Some (headshot c).
Proof.
  exists {[ 3 := "xl/media/image1.png" ]}.
  assert (Hrun : map_anchor_rows_to_images int_literal Sample.package
                   "xl/drawings/drawing1.xml" = Ok {[ 3 := "xl/media/image1.png" ]})
    by (vm_compute; reflexivity).
  destruct (anchor_recorded_at_row_plus_one int_literal Sample.package
              "xl/drawings/drawing1.xml"
              (Sample.relationships_root
                 [Sample.relationship "rId1" (Sample.type_of "image") "../media/image1.png"])
              (Sample.drawing_root [Sample.anchor "2" "rId1"])
              {[ "rId1" := "xl/media/image1.png" ]}
              [] (Sample.anchor "2" "rId1") [] 2 "xl/media/image1.png"
              {[ 3 := "xl/media/image1.png" ]})
    as (_ & _ & Hlast & Hrow).
  - vm_compute. reflexivity.
  - vm_compute. reflexivity.
  - vm_compute. reflexivity.
  - reflexivity.
  - vm_compute. reflexivity.
  - exact Hrun.
  - split; [exact Hrun|]. split.
    + apply Hlast. intros a image Ha. inversion Ha.
    + apply (Hrow "Treasurer" [] _ (<["A" := "Alice"]> ∅)).
      * vm_compute. reflexivity.
      * vm_compute. reflexivity.
Defined.

(** C7.  When several anchors contribute a picture at the same row, the
    anchor map holds, under that row plus one, the image of the one that
    comes last in the drawing document. *)
Theorem last_anchor_wins
  (py_int : string -> option Z) (zip_file : gmap string Member)
  (drawing_path : string) (rel_root drawing : Element)
  (rel_map : gmap string string)
  (before : list Element) (earlier : Element) (between : list Element)
  (later : Element) (after : list Element)
  (r : Z) (earlier_image later_image : string) (m : gmap Z string) :
  zip_file !! rels_path drawing_path = Some (Xml rel_root) ->
  build_rel_map
    (fun target => Path.normpath (Path.join (Path.dirname drawing_path) [target]))
    (findall Tag.Relationship rel_root) = Ok rel_map ->
  zip_file !! drawing_path = Some (Xml drawing) ->
  children drawing = (before ++ earlier :: between ++ later :: after)%list ->
  anchor_picture py_int rel_map earlier = Some (r, earlier_image) ->
  anchor_picture py_int rel_map later = Some (r, later_image) ->
  (forall a image, a ∈ after -> anchor_picture py_int rel_map a <> Some (r, image)) ->
  map_anchor_rows_to_images py_int zip_file drawing_path = Ok m ->
  m !! (r + 1) = Some later_image.
Proof.
  intros Hrels Hmap Hdrawing Hchildren _ Hlater Hafter Hrun.
  rewrite (map_anchor_rows_to_images_loop py_int zip_file drawing_path rel_root
             drawing rel_map Hrels Hmap Hdrawing), Hchildren in Hrun.
  change (before ++ earlier :: between ++ later :: after)%list
    with (before ++ (earlier :: between) ++ later :: after)%list in Hrun.
  rewrite app_assoc in Hrun.
  eapply anchors_loop_last; [exact Hlater|exact Hafter|exact Hrun].
Qed.

Lemma last_anchor_wins_witness :
  exists m,
    map_anchor_rows_to_images int_literal Sample.same_row_package
      "xl/drawings/drawing1.xml" = Ok m
    /\ m !! (2 + 1) = Some "xl/media/image2.jpeg".
Proof.
  eexists. split; [vm_compute; reflexivity|].
  eapply (last_anchor_wins int_literal Sample.same_row_package
           "xl/drawings/drawing1.xml"
           (Sample.relationships_root
              [Sample.relationship "rId1" (Sample.type_of "image") "../media/image1.png";
               Sample.relationship "rId2" (Sample.type_of "image") "../media/image2.jpeg"])
           (Sample.drawing_root Sample.same_row_anchors)
           (<["rId2" := "xl/media/image2.jpeg"]> {[ "rId1" := "xl/media/image1.png" ]})
           [] (Sample.anchor "2" "rId1") [Sample.anchor "5" "rId1"]
           (Sample.anchor "2" "rId2") []
           2 "xl/media/image1.png" "xl/media/image2.jpeg").
  - vm_compute. reflexivity.
  - vm_compute. reflexivity.
  - vm_compute. reflexivity.
  - reflexivity.
  - vm_compute. reflexivity.
  - vm_compute. reflexivity.
  - intros a image Ha. inversion Ha.
  - vm_compute. reflexivity.
Defined.

(** ** Rows without a row index *)

Lemma read_row_unnumbered (py_int : string -> option Z)
  (shared_strings : list string) (rows : list (Z * gmap string string))
  (row : Element) :
  py_int "0" = Some 0 ->
  attrib row !! "r" = None ->
  read_row py_int shared_strings rows row
  = let* cells := for_loop (read_cell py_int shared_strings) (findall Tag.c row) ∅ in
    Ok (rows ++ [(0, cells)])%list.
Proof.
  intros Hzero Hr. unfold read_row, int_of_str. rewrite Hr. cbn [default].
  rewrite Hzero. reflexivity.
Qed.

(** C9 (as amended).  A row element without a row-index attribute is given
    the row index 0.  When no anchor of the drawing contributes a picture at
    a negative row, every key of the anchor map is at least 1, and a
    candidate built from a row of index 0 gets no headshot. *)
Theorem unnumbered_row_no_headshot
  (py_int : string -> option Z) (zip_file : gmap string Member)
  (drawing_path : string) (rel_root drawing : Element)
  (rel_map : gmap string string) (m : gmap Z string) :
  zip_file !! rels_path drawing_path = Some (Xml rel_root) ->
  build_rel_map
    (fun target => Path.normpath (Path.join (Path.dirname drawing_path) [target]))
    (findall Tag.Relationship rel_root) = Ok rel_map ->
  zip_file !! drawing_path = Some (Xml drawing) ->
  map_anchor_rows_to_images py_int zip_file drawing_path = Ok m ->
  py_int "0" = Some 0 ->
  nonneg_anchor_rows py_int rel_map drawing ->
  (forall shared_strings rows row,
     attrib row !! "r" = None ->
     read_row py_int shared_strings rows row
     = let* cells := for_loop (read_cell py_int shared_strings) (findall Tag.c row) ∅ in
       Ok (rows ++ [(0, cells)])%list)
  /\ (forall k, is_Some (m !! k) -> 1 <= k)
  /\ (forall display_name candidates candidates' cells,
        candidate_body zip_file display_name m candidates (0, cells) = Ok candidates' ->
        candidates' = candidates
        \/ exists c, candidates' = (candidates ++ [c])%list /\ headshot c = None).
Proof.
  intros Hrels Hmap Hdrawing Hrun Hzero Hnonneg.
  assert (Hkeys : forall k, is_Some (m !! k) -> 1 <= k).
  { intros k [image Hk].
    rewrite (map_anchor_rows_to_images_loop py_int zip_file drawing_path rel_root
               drawing rel_map Hrels Hmap Hdrawing) in Hrun.
    destruct (anchors_loop_entries py_int rel_map _ m Hrun k image Hk) as (a & Ha & Hp).
    specialize (Hnonneg a (k - 1) image Ha Hp). lia. }
  split; [|split; [exact Hkeys|]].
  - intros shared_strings rows row. by apply read_row_unnumbered.
  - intros display_name candidates candidates' cells Hcand.
    destruct (blank (Str.or_empty (cells !! "A"))) eqn:Hb.
    + left. rewrite candidate_body_blank in Hcand by exact Hb. congruence.
    + right. destruct (candidate_body_named _ _ _ _ _ _ _ Hb Hcand) as (h & -> & Hh).
      eexists. split; [reflexivity|]. cbn [headshot].
      destruct h as [path|]; [|reflexivity].
      destruct (proj1 Hh (ltac:(eauto))) as (rel & Hrel & _).
      assert (1 <= 0) by (apply Hkeys; eauto). lia.
Qed.

Lemma unnumbered_row_no_headshot_witness :
  read_row int_literal [] []
    (Sample.row None [Sample.cell (Some "A2") None "Bob";
                      Sample.cell (Some "C2") None "Count on me"])
  = Ok [(0, <["C" := "Count on me"]> (<["A" := "Bob"]> ∅))]
  /\ (forall k, is_Some (({[ 1 := "xl/media/image1.png" ]} : gmap Z string) !! k) -> 1 <= k)
  /\ ([mkCandidate "Bob" "Count on me" None] = []
      \/ exists c, [mkCandidate "Bob" "Count on me" None] = ([] ++ [c])%list
                   /\ headshot c = None).
Proof.
  destruct (unnumbered_row_no_headshot int_literal (Sample.unnumbered_row_package "0")
              "xl/drawings/drawing1.xml"
              (Sample.relationships_root
                 [Sample.relationship "rId1" (Sample.type_of "image") "../media/image1.png";
                  Sample.relationship "rId2" (Sample.type_of "image") "../media/image2.jpeg"])
              (Sample.drawing_root [Sample.anchor "0" "rId1"])
              (<["rId2" := "xl/media/image2.jpeg"]> {[ "rId1" := "xl/media/image1.png" ]})
              {[ 1 := "xl/media/image1.png" ]})
    as (Hrow & Hkeys & Hcand).
  - vm_compute. reflexivity.
  - vm_compute. reflexivity.
  - vm_compute. reflexivity.
  - vm_compute. reflexivity.
  - reflexivity.
  - intros a r image Ha Hp.
    apply list_elem_of_singleton in Ha. subst a.
    vm_compute in Hp. injection Hp as <- _. lia.
  - split; [|split; [exact Hkeys|]].
    + rewrite Hrow by reflexivity. vm_compute. reflexivity.
    + apply (Hcand "Treasurer" [] _
               (<["C" := "Count on me"]> (<["A" := "Bob"]> ∅))).
      vm_compute. reflexivity.
Defined.

(** C9, the claim as stated fails.  An anchor declared at row [-1] yields the
    anchor-map key 0, and the candidate built from the row without a row
    index receives its image as headshot. *)
Lemma negative_anchor_reaches_unnumbered_row :
  (let* m := map_anchor_rows_to_images int_literal
               (Sample.unnumbered_row_package "-1") "xl/drawings/drawing1.xml" in
   Ok (m !! 0)) = Ok (Some "xl/media/image1.png")
  /\ extract int_literal (Sample.unnumbered_row_package "-1")
     = Ok [mkPosition "Treasurer" "treasurer" "Treasurer"
             [mkCandidate "Bob" "Count on me"
                (Some "assets/headshots/treasurer-bob.png")]].
Proof. vm_compute. split; reflexivity. Qed.

(** ** Extraction Orchestrator: which sheets yield a Position *)

Section Positions.
Variables (py_int : string -> option Z) (zip_file : gmap string Member)
          (shared_strings : list string).

Lemma position_body_outcome (positions positions' : list Position)
  (target : string * string) :
  position_body py_int zip_file shared_strings positions target = Ok positions' ->
  exists rows emitted,
    read_sheet_rows py_int zip_file target.2 shared_strings = Ok rows
    /\ sheet_outcome rows target emitted
    /\ positions' = (positions ++ option_list emitted)%list.
Proof.
  destruct target as [sheet_name sheet_path]. intros Hrun.
  unfold position_body in Hrun.
  apply rbind_Ok in Hrun as (drawing_path & _ & Hrun).
  apply rbind_Ok in Hrun as (row_image_map & _ & Hrun).
  apply rbind_Ok in Hrun as (rows & Hrows & Hrun).
  exists rows. destruct rows as [|header data_rows].
  - injection Hrun as <-. exists None. split; [exact Hrows|]. split.
    + split; [split; [by intros [? ?] | done] | discriminate].
    + cbn [option_list]. by rewrite app_nil_r.
  - apply rbind_Ok in Hrun as (cs & Hcs & Hrun). injection Hrun as <-.
    eexists (Some _). split; [exact Hrows|]. split; [|reflexivity].
    split; [split; [discriminate | eauto]|].
    intros p [= <-]. cbn [sheet candidates fst]. split; [reflexivity|].
    intros Hlen. destruct data_rows; [|discriminate Hlen].
    cbn [for_loop] in Hcs. congruence.
Qed.

Lemma positions_loop_outcome (targets : list (string * string))
  (positions positions' : list Position) :
  for_loop (position_body py_int zip_file shared_strings) targets positions
  = Ok positions' ->
  exists per_sheet : list (option Position),
    positions' = (positions ++ omap id per_sheet)%list
    /\ Forall2 (fun target emitted =>
                  exists rows,
                    read_sheet_rows py_int zip_file target.2 shared_strings = Ok rows
                    /\ sheet_outcome rows target emitted)
               targets per_sheet.
Proof.
  revert positions. induction targets as [|target targets IH]; intros positions Hrun.
  - injection Hrun as <-. exists []. split; [by rewrite app_nil_r | constructor].
  - cbn [for_loop] in Hrun. apply rbind_Ok in Hrun as (mid & Hbody & Hrun).
    destruct (position_body_outcome _ _ _ Hbody) as (rows & emitted & Hrows & Hout & ->).
    destruct (IH _ Hrun) as (per_sheet & -> & Hall).
    exists (emitted :: per_sheet). split.
    + rewrite <- app_assoc. by destruct emitted.
    + constructor; [eauto | exact Hall].
Qed.

End Positions.

(** C1 (as amended).  The output holds, in the order of the sheet targets,
    one Position for every sheet whose row list is not empty, the header row
    counting as a row: a sheet without rows yields no Position, and a sheet
    whose only row is the header yields a Position without candidates. *)
Theorem position_iff_rows
  (py_int : string -> option Z) (zip_file : gmap string Member)
  (shared_strings : list string) (sheet_targets : list (string * string))
  (positions : list Position) :
  load_shared_strings zip_file = Ok shared_strings ->
  load_sheet_targets zip_file = Ok sheet_targets ->
  extract py_int zip_file = Ok positions ->
  exists per_sheet : list (option Position),
    positions = omap id per_sheet
    /\ Forall2 (fun target emitted =>
                  exists rows,
                    read_sheet_rows py_int zip_file target.2 shared_strings = Ok rows
                    /\ sheet_outcome rows target emitted)
               sheet_targets per_sheet.
Proof.
  intros Hshared Htargets Hrun. unfold extract in Hrun.
  rewrite Hshared, Htargets in Hrun. cbn [rbind] in Hrun.
  destruct (positions_loop_outcome _ _ _ _ _ _ Hrun) as (per_sheet & -> & Hall).
  exists per_sheet. split; [reflexivity | exact Hall].
Qed.

Lemma position_iff_rows_witness :
  exists per_sheet : list (option Position),
    [mkPosition "Treasurer" "treasurer" "Treasurer"
       [mkCandidate "Bob" "Count on me" None]] = omap id per_sheet
    /\ Forall2 (fun target emitted =>
                  exists rows,
                    read_sheet_rows int_literal Sample.two_sheet_package target.2 []
                    = Ok rows
                    /\ sheet_outcome rows target emitted)
               [("Secretary", "xl/worksheets/sheet1.xml");
                ("Treasurer", "xl/worksheets/sheet2.xml")]
               per_sheet.
Proof.
  apply (position_iff_rows int_literal Sample.two_sheet_package).
  - vm_compute. reflexivity.
  - vm_compute. reflexivity.
  - vm_compute. reflexivity.
Defined.

(** C1, the claim as stated fails.  The sheet holds a header row and no data
    row, and a Position is emitted for it, with no candidates. *)
Lemma header_only_sheet_yields_position :
  read_sheet_rows int_literal Sample.header_only_package "xl/worksheets/sheet1.xml" []
  = Ok [(1, <["C" := "Statement"]> (<["A" := "Name"]> ∅))]
  /\ extract int_literal Sample.header_only_package
     = Ok [mkPosition "Treasurer" "treasurer" "Treasurer" []].
Proof. vm_compute. split; reflexivity. Qed.

(** ** Missing relationship files *)

(** C2, on the code.  A sheet without a sidecar relationship file has no
    drawing and its extraction goes on, but a drawing without a sidecar
    relationship file makes the Anchor Mapper raise [KeyError]. *)
Theorem missing_rels_file (py_int : string -> option Z)
  (zip_file : gmap string Member) (part : string) :
  zip_file !! rels_path part = None ->
  find_drawing_path zip_file part = Ok None
  /\ map_anchor_rows_to_images py_int zip_file part = Raise KeyError.
Proof.
  intros Hmissing. split.
  - unfold find_drawing_path, in_namelist. rewrite Hmissing.
    rewrite bool_decide_eq_false_2; [reflexivity|]. by intros [? ?].
  - unfold map_anchor_rows_to_images, read_xml, zip_read.
    rewrite Hmissing. reflexivity.
Qed.

Lemma missing_rels_file_witness :
  Sample.shapes_only_package !! "xl/drawings/_rels/drawing1.xml.rels" = None
  /\ find_drawing_path Sample.shapes_only_package "xl/worksheets/sheet1.xml"
     = Ok (Some "xl/drawings/drawing1.xml")
  /\ map_anchor_rows_to_images int_literal Sample.shapes_only_package
       "xl/drawings/drawing1.xml" = Raise KeyError
  /\ main int_literal (Some Sample.shapes_only_package) = Uncaught KeyError.
Proof.
  split; [vm_compute; reflexivity|]. split; [vm_compute; reflexivity|]. split.
  - apply (missing_rels_file int_literal Sample.shapes_only_package
             "xl/drawings/drawing1.xml").
    vm_compute. reflexivity.
  - vm_compute. reflexivity.
Defined.
(** * Further properties *)

(** ** [strip] in general *)

Section StripBy.
Variable p : ascii -> bool.

Lemma drop_while_suffix (l : list ascii) :
  exists h, l = (h ++ Str.drop_while p l)%list.
Proof.
  induction l as [|c l [h IH]]; [by exists []|]. simpl.
  destruct (p c); [|by exists []].
  exists (c :: h). simpl. by rewrite <- IH.
Qed.

Lemma rstrip_by_prefix (l : list ascii) :
  exists t, l = (Str.rstrip_by p l ++ t)%list.
Proof.
  unfold Str.rstrip_by. destruct (drop_while_suffix (rev l)) as [h Hh].
  exists (rev h). rewrite <- rev_app_distr, <- Hh. by rewrite rev_involutive.
Qed.

Lemma drop_while_head_not (l : list ascii) :
  head_not p (Str.drop_while p l) = true.
Proof.
  destruct (Str.drop_while p l) as [|c l'] eqn:H; [reflexivity|].
  simpl. by rewrite (drop_while_head p l c l' H).
Qed.

Lemma drop_while_snoc (l : list ascii) (c : ascii) :
  p c = false ->
  Str.drop_while p (l ++ [c]) = (Str.drop_while p l ++ [c])%list.
Proof.
  intros Hc. induction l as [|d l IH]; simpl; [by rewrite Hc|].
  destruct (p d); [exact IH | reflexivity].
Qed.

Lemma strip_by_head_not (l : list ascii) : head_not p (Str.strip_by p l) = true.
Proof.
  unfold Str.strip_by, Str.lstrip_by, Str.rstrip_by.
  destruct (Str.drop_while p l) as [|c l'] eqn:H; [reflexivity|].
  pose proof (drop_while_head p l c l' H) as Hc.
  simpl. rewrite drop_while_snoc by exact Hc.
  rewrite rev_app_distr. simpl. by rewrite Hc.
Qed.

Lemma strip_by_last_not (l : list ascii) :
  head_not p (rev (Str.strip_by p l)) = true.
Proof.
  unfold Str.strip_by, Str.rstrip_by. rewrite rev_involutive.
  apply drop_while_head_not.
Qed.

(** What is stripped is cut from the two ends only. *)
Lemma strip_by_infix (l : list ascii) :
  exists h t, l = (h ++ Str.strip_by p l ++ t)%list.
Proof.
  unfold Str.strip_by, Str.lstrip_by.
  destruct (drop_while_suffix l) as [h Hh].
  destruct (rstrip_by_prefix (Str.drop_while p l)) as [t Ht].
  exists h, t. by rewrite <- Ht.
Qed.

Lemma strip_by_forallb (q : ascii -> bool) (l : list ascii) :
  forallb q l = true -> forallb q (Str.strip_by p l) = true.
Proof.
  intros H. destruct (strip_by_infix l) as (h & t & Hl).
  rewrite Hl in H. rewrite !forallb_app in H.
  apply andb_true_iff in H as [_ H]. by apply andb_true_iff in H as [H _].
Qed.

End StripBy.

Lemma strip_trimmed_result (s : string) : trimmed (Str.strip s) = true.
Proof.
  unfold trimmed, Str.strip. rewrite chars_of_chars.
  apply andb_true_iff. split.
  - apply (strip_by_head_not Str.isspace).
  - apply (strip_by_last_not Str.isspace).
Qed.

(** ** [slugify] *)

Lemma slug_char_facts (c : ascii) :
  is_slug_char c = true ->
  Str.lower_char c = c /\ is_dash c = false /\ Ascii.eqb c "-"%char = false.
Proof.
  intros H. assert (Hd : c <> "-"%char) by (intros ->; discriminate H).
  split; [|split].
  - revert H. unfold is_slug_char, Str.lower_char, Str.in_range.
    generalize (Str.code c). intros n.
    repeat match goal with
           | |- context [N.leb ?a ?b] => destruct (N.leb_spec a b)
           end; simpl; try reflexivity; try discriminate; lia.
  - unfold is_dash. apply Ascii.eqb_neq. congruence.
  - by apply Ascii.eqb_neq.
Qed.

Lemma dash_facts (c : ascii) :
  is_dash c = true -> c = "-"%char.
Proof. unfold is_dash. intros H. apply Ascii.eqb_eq in H. congruence. Qed.

Lemma single_dashes_step (c d : ascii) (l : list ascii) :
  single_dashes (c :: d :: l)
  = (negb (is_dash c && is_dash d) && single_dashes (d :: l))%bool.
Proof. reflexivity. Qed.

Lemma single_dashes_app_r (a b : list ascii) :
  single_dashes (a ++ b) = true -> single_dashes b = true.
Proof.
  induction a as [|c a IH]; [done|]. intros H. apply IH.
  simpl in H. destruct (a ++ b)%list; [reflexivity|].
  by apply andb_true_iff in H as [_ H].
Qed.

Lemma single_dashes_app_l (a b : list ascii) :
  single_dashes (a ++ b) = true -> single_dashes a = true.
Proof.
  induction a as [|c a IH]; [done|]. intros H.
  destruct a as [|d a]; [reflexivity|].
  change ((c :: d :: a) ++ b)%list with (c :: d :: (a ++ b))%list in H.
  rewrite single_dashes_step in H |- *.
  apply andb_true_iff in H as [H1 H2]. rewrite H1. simpl. by apply IH.
Qed.

Lemma single_dashes_cons (c : ascii) (l : list ascii) :
  (is_dash c = false \/ head_not is_dash l = true) ->
  single_dashes l = true -> single_dashes (c :: l) = true.
Proof.
  intros Hc Hl. destruct l as [|d l]; [reflexivity|].
  rewrite single_dashes_step, Hl, andb_true_r.
  destruct Hc as [Hc|Hd]; [by rewrite Hc|].
  simpl in Hd. apply negb_true_iff in Hd. rewrite Hd. by rewrite andb_false_r.
Qed.

Lemma sub_non_slug_chars (l : list ascii) (in_run : bool) :
  forallb slug_or_dash (sub_non_slug l in_run) = true.
Proof.
  revert in_run. induction l as [|c l IH]; intros in_run; simpl; [reflexivity|].
  destruct (is_slug_char c) eqn:Hc.
  - simpl. unfold slug_or_dash at 1. by rewrite Hc, IH.
  - destruct in_run; [apply IH|]. simpl. by rewrite IH.
Qed.

Lemma sub_non_slug_shape (l : list ascii) (in_run : bool) :
  single_dashes (sub_non_slug l in_run) = true
  /\ (in_run = true -> head_not is_dash (sub_non_slug l in_run) = true).
Proof.
  revert in_run. induction l as [|c l IH]; intros in_run; simpl; [done|].
  destruct (is_slug_char c) eqn:Hc.
  - destruct (slug_char_facts c Hc) as (_ & Hd & _). split.
    + apply single_dashes_cons; [by left | apply IH].
    + intros _. simpl. by rewrite Hd.
  - destruct in_run; [apply IH|]. split; [|discriminate].
    apply single_dashes_cons; [right|]; by apply IH.
Qed.

Lemma sub_dashes_forallb (q : ascii -> bool) (l : list ascii) (in_run : bool) :
  forallb q l = true -> forallb q (sub_dashes l in_run) = true.
Proof.
  revert in_run. induction l as [|c l IH]; intros in_run H; simpl; [reflexivity|].
  simpl in H. apply andb_true_iff in H as [Hc Hl].
  destruct (Ascii.eqb c "-"); [destruct in_run|]; simpl; rewrite ?Hc; simpl; by apply IH.
Qed.

Lemma sub_dashes_shape (l : list ascii) (in_run : bool) :
  single_dashes (sub_dashes l in_run) = true
  /\ (in_run = true -> head_not is_dash (sub_dashes l in_run) = true).
Proof.
  revert in_run. induction l as [|c l IH]; intros in_run; simpl; [done|].
  destruct (Ascii.eqb c "-") eqn:Hc.
  - destruct in_run; [apply IH|]. split; [|discriminate].
    apply single_dashes_cons; [right|]; by apply IH.
  - assert (Hd : is_dash c = false).
    { unfold is_dash. apply Ascii.eqb_neq. apply Ascii.eqb_neq in Hc. congruence. }
    split.
    + apply single_dashes_cons; [by left | apply IH].
    + intros _. simpl. by rewrite Hd.
Qed.

Lemma slugify_shape (text : string) : is_slug (slugify text) = true.
Proof.
  unfold slugify, is_slug, Str.strip_char. rewrite !chars_of_chars.
  set (l := sub_dashes (sub_non_slug (Str.chars (Str.lower text)) false) false).
  assert (Hall : forallb slug_or_dash l = true)
    by apply sub_dashes_forallb, sub_non_slug_chars.
  assert (Hsingle : single_dashes l = true) by apply sub_dashes_shape.
  destruct (strip_by_infix (Ascii.eqb "-"%char) l) as (h & t & Hl).
  repeat (apply andb_true_iff; split).
  - by apply strip_by_forallb.
  - rewrite Hl in Hsingle.
    by apply single_dashes_app_r, single_dashes_app_l in Hsingle.
  - apply (strip_by_head_not (Ascii.eqb "-"%char)).
  - apply (strip_by_last_not (Ascii.eqb "-"%char)).
Qed.

(** X1.  Whatever the text, [slugify] returns a slug: only lower-case ASCII
    letters, digits and dashes, never two dashes in a row, and no dash at
    the beginning or at the end. *)
Theorem slugify_is_slug (text : string) : is_slug (slugify text) = true.
Proof. apply slugify_shape. Qed.

Lemma lower_fixed (l : list ascii) :
  forallb slug_or_dash l = true -> List.map Str.lower_char l = l.
Proof.
  induction l as [|c l IH]; simpl; [done|]. intros H.
  apply andb_true_iff in H as [Hc Hl]. rewrite IH by done. f_equal.
  apply orb_true_iff in Hc as [Hc|Hc]; [by apply slug_char_facts|].
  apply dash_facts in Hc. by subst c.
Qed.

Lemma sub_non_slug_fixed (l : list ascii) (in_run : bool) :
  forallb slug_or_dash l = true -> single_dashes l = true ->
  (in_run = true -> head_not is_dash l = true) ->
  sub_non_slug l in_run = l.
Proof.
  revert in_run. induction l as [|c l IH]; intros in_run Hall Hsingle Hhead;
    simpl; [done|].
  simpl in Hall. apply andb_true_iff in Hall as [Hc Hl].
  assert (Hsl : single_dashes l = true)
    by (exact (single_dashes_app_r [c] l Hsingle)).
  destruct (is_slug_char c) eqn:Hslug.
  - f_equal. apply IH; [done|done|discriminate].
  - apply orb_true_iff in Hc as [Hc|Hc]; [congruence|].
    destruct in_run.
    + specialize (Hhead eq_refl). simpl in Hhead. by rewrite Hc in Hhead.
    + pose proof (dash_facts c Hc) as ->. f_equal. apply IH; [done|done|].
      intros _. destruct l as [|d l]; [reflexivity|].
      rewrite single_dashes_step in Hsingle.
      apply andb_true_iff in Hsingle as [H _].
      simpl. rewrite Hc in H. simpl in H. exact H.
Qed.

Lemma sub_dashes_fixed (l : list ascii) (in_run : bool) :
  single_dashes l = true ->
  (in_run = true -> head_not is_dash l = true) ->
  sub_dashes l in_run = l.
Proof.
  revert in_run. induction l as [|c l IH]; intros in_run Hsingle Hhead;
    simpl; [done|].
  assert (Hsl : single_dashes l = true)
    by (exact (single_dashes_app_r [c] l Hsingle)).
  destruct (Ascii.eqb c "-") eqn:Hc.
  - apply Ascii.eqb_eq in Hc. subst c. destruct in_run.
    + specialize (Hhead eq_refl). discriminate Hhead.
    + f_equal. apply IH; [done|]. intros _.
      destruct l as [|d l]; [reflexivity|].
      rewrite single_dashes_step in Hsingle.
      apply andb_true_iff in Hsingle as [H _]. exact H.
  - f_equal. apply IH; [done|discriminate].
Qed.

(** X2.  [slugify] leaves a slug as it is; hence slugifying twice gives the
    same as slugifying once. *)
Theorem slugify_idempotent (text : string) :
  (is_slug text = true -> slugify text = text)
  /\ slugify (slugify text) = slugify text.
Proof.
  assert (Hfix : forall t, is_slug t = true -> slugify t = t).
  { intros t H. unfold is_slug in H.
    apply andb_true_iff in H as [H Hlast]. apply andb_true_iff in H as [H Hhead].
    apply andb_true_iff in H as [Hall Hsingle].
    unfold slugify, Str.lower, Str.strip_char. rewrite !chars_of_chars.
    rewrite lower_fixed by done.
    rewrite sub_non_slug_fixed by (done || discriminate).
    rewrite sub_dashes_fixed by (done || discriminate).
    rewrite (strip_by_fixed (Ascii.eqb "-"%char)) by done.
    apply of_chars_chars. }
  split; [apply Hfix | apply Hfix, slugify_shape].
Qed.

Lemma slugify_idempotent_witness :
  slugify "vice-president-2026" = "vice-president-2026".
Proof.
  apply (proj1 (slugify_idempotent "vice-president-2026")).
  vm_compute. reflexivity.
Defined.

(** ** The output of the orchestrator *)

Lemma has_tab_false_iff (s : string) :
  has_tab s = false
  <-> forallb (fun c => negb (Ascii.eqb c tab)) (Str.chars s) = true.
Proof.
  unfold has_tab. induction (Str.chars s) as [|c l IH]; simpl; [done|].
  rewrite orb_false_iff, andb_true_iff, negb_true_iff. by rewrite IH.
Qed.

Lemma statement_no_tab (s : string) :
  has_tab (Str.strip (Str.replace_char tab " "%char s)) = false.
Proof.
  apply has_tab_false_iff. unfold Str.strip, Str.replace_char.
  rewrite !chars_of_chars. apply strip_by_forallb.
  induction (Str.chars s) as [|c l IH]; simpl; [done|].
  rewrite IH, andb_true_r. by destruct (Ascii.eqb c tab) eqn:Hc; [|rewrite Hc].
Qed.

Lemma candidate_body_row_texts
  (zip_file : gmap string Member) (display_name : string)
  (row_image_map : gmap Z string) (candidates candidates' : list Candidate)
  (row : Z * gmap string string) :
  candidate_body zip_file display_name row_image_map candidates row = Ok candidates' ->
  exists added,
    candidates' = (candidates ++ added)%list
    /\ List.map (fun c => (name c, statement c)) added = option_list (row_texts row).
Proof.
  destruct row as [row_idx cells]. intros Hrun. unfold row_texts. cbn [snd].
  destruct (blank (Str.or_empty (cells !! "A"))) eqn:Hb.
  - rewrite candidate_body_blank in Hrun by done. injection Hrun as <-.
    exists []. split; [by rewrite app_nil_r|].
    apply strip_empty_iff in Hb. by rewrite Hb.
  - destruct (candidate_body_named _ _ _ _ _ _ _ Hb Hrun) as (h & -> & _).
    eexists [_]. split; [reflexivity|]. cbn [List.map name statement].
    destruct (Str.truthy _) eqn:Ht; [reflexivity|].
    apply truthy_false_iff, strip_empty_iff in Ht. congruence.
Qed.

Lemma candidates_loop_row_texts
  (zip_file : gmap string Member) (display_name : string)
  (row_image_map : gmap Z string) (data_rows : list (Z * gmap string string))
  (candidates candidates' : list Candidate) :
  for_loop (candidate_body zip_file display_name row_image_map) data_rows candidates
  = Ok candidates' ->
  exists added,
    candidates' = (candidates ++ added)%list
    /\ List.map (fun c => (name c, statement c)) added = omap row_texts data_rows.
Proof.
  revert candidates. induction data_rows as [|row data_rows IH]; intros candidates Hrun.
  - injection Hrun as <-. exists []. by rewrite app_nil_r.
  - cbn [for_loop] in Hrun. apply rbind_Ok in Hrun as (mid & Hbody & Hrun).
    destruct (candidate_body_row_texts _ _ _ _ _ _ Hbody) as (a1 & -> & H1).
    destruct (IH _ Hrun) as (a2 & -> & H2).
    exists (a1 ++ a2)%list. split; [by rewrite app_assoc|].
    rewrite map_app, H1, H2. cbn [omap list_omap].
    by destruct (row_texts row).
Qed.

(** X3.  The candidates of a sheet follow the order of its data rows: when
    the body of the sheet loop returns for a sheet with rows, it appends one
    Position whose candidates carry, in row order, the name and statement of
    exactly the data rows with a non-blank name. *)
Theorem candidates_in_row_order
  (py_int : string -> option Z) (zip_file : gmap string Member)
  (shared_strings : list string) (positions positions' : list Position)
  (sheet_name sheet_path : string)
  (header : Z * gmap string string) (data_rows : list (Z * gmap string string)) :
  read_sheet_rows py_int zip_file sheet_path shared_strings = Ok (header :: data_rows) ->
  position_body py_int zip_file shared_strings positions (sheet_name, sheet_path)
  = Ok positions' ->
  exists p,
    positions' = (positions ++ [p])%list
    /\ List.map (fun c => (name c, statement c)) (candidates p)
       = omap row_texts data_rows.
Proof.
  intros Hrows Hrun. unfold position_body in Hrun.
  apply rbind_Ok in Hrun as (drawing_path & _ & Hrun).
  apply rbind_Ok in Hrun as (row_image_map & _ & Hrun).
  rewrite Hrows in Hrun. cbn [rbind] in Hrun.
  apply rbind_Ok in Hrun as (cs & Hcs & Hrun). injection Hrun as <-.
  eexists. split; [reflexivity|]. cbn [candidates].
  destruct (candidates_loop_row_texts _ _ _ _ _ _ Hcs) as (added & -> & Hadded).
  exact Hadded.
Qed.

Lemma candidates_in_row_order_witness :
  exists p,
    [mkPosition "Vice President of Internal Affairs"
       "vice-president-of-internal-affairs" "Vice President of Internal Affa"
       [mkCandidate "Alice" "Vote for me"
          (Some "assets/headshots/vice-president-of-internal-affairs-alice.png")]]
    = ([] ++ [p])%list
    /\ List.map (fun c => (name c, statement c)) (candidates p)
       = omap row_texts
           [(3, <["C" := "Vote for me"]> (<["A" := "Alice"]> ∅));
            (4, <["C" := "ignored"]> (<["A" := "  "]> ∅))].
Proof.
  apply (candidates_in_row_order int_literal Sample.package
           ["Name"; "Statement"; "Alice"; "Vote for me"] []
           _ Sample.sheet_name "xl/worksheets/sheet1.xml"
           (1, <["C" := "Statement"]> (<["A" := "Name"]> ∅))).
  - vm_compute. reflexivity.
  - vm_compute. reflexivity.
Defined.

Lemma candidate_body_keeps_tidy
  (zip_file : gmap string Member) (display_name : string)
  (row_image_map : gmap Z string) (candidates candidates' : list Candidate)
  (row : Z * gmap string string) :
  Forall tidy candidates ->
  candidate_body zip_file display_name row_image_map candidates row = Ok candidates' ->
  Forall tidy candidates'.
Proof.
  destruct row as [row_idx cells]. intros Hall Hrun.
  destruct (blank (Str.or_empty (cells !! "A"))) eqn:Hb.
  - rewrite candidate_body_blank in Hrun by done. by injection Hrun as <-.
  - destruct (candidate_body_named _ _ _ _ _ _ _ Hb Hrun) as (h & -> & _).
    apply Forall_app. split; [done|]. constructor; [|constructor].
    unfold tidy. cbn [name statement].
    split; [|split]; [apply strip_trimmed_result.. | apply statement_no_tab].
Qed.


Section OutputInvariant.
Variables (py_int : string -> option Z) (zip_file : gmap string Member).
Variable Q : Candidate -> Prop.
Hypothesis body_keeps :
  forall display_name row_image_map candidates candidates' row,
    Forall Q candidates ->
    candidate_body zip_file display_name row_image_map candidates row = Ok candidates' ->
    Forall Q candidates'.

Lemma position_body_keeps (shared_strings : list string)
  (positions positions' : list Position) (target : string * string) :
  Forall (fun p => titled p /\ Forall Q (candidates p)) positions ->
  position_body py_int zip_file shared_strings positions target = Ok positions' ->
  Forall (fun p => titled p /\ Forall Q (candidates p)) positions'.
Proof.
  destruct target as [sheet_name sheet_path]. intros Hall Hrun.
  unfold position_body in Hrun.
  apply rbind_Ok in Hrun as (drawing_path & _ & Hrun).
  apply rbind_Ok in Hrun as (row_image_map & _ & Hrun).
  apply rbind_Ok in Hrun as (rows & _ & Hrun).
  destruct rows as [|header data_rows]; [by injection Hrun as <-|].
  apply rbind_Ok in Hrun as (cs & Hcs & Hrun). injection Hrun as <-.
  apply Forall_app. split; [done|]. constructor; [|constructor].
  split; [split; reflexivity|]. cbn [candidates].
  eapply (for_loop_invariant _ (Forall Q)); [constructor| |exact Hcs].
  intros row t t' _. apply body_keeps.
Qed.

Lemma extract_keeps (positions : list Position) :
  extract py_int zip_file = Ok positions ->
  Forall (fun p => titled p /\ Forall Q (candidates p)) positions.
Proof.
  intros Hrun. unfold extract in Hrun.
  apply rbind_Ok in Hrun as (shared_strings & _ & Hrun).
  apply rbind_Ok in Hrun as (sheet_targets & _ & Hrun).
  eapply (for_loop_invariant _
            (Forall (fun p => titled p /\ Forall Q (candidates p))));
    [constructor| |exact Hrun].
  intros target t t' _. apply position_body_keeps.
Qed.

End OutputInvariant.

(** X4.  In the output of a run that returns, every candidate's name and
    statement are free of whitespace at both ends and the statement holds no
    tab. *)
Theorem output_texts_tidy (py_int : string -> option Z)
  (zip_file : gmap string Member) (positions : list Position)
  (p : Position) (c : Candidate) :
  extract py_int zip_file = Ok positions ->
  p ∈ positions -> c ∈ candidates p ->
  trimmed (name c) = true /\ trimmed (statement c) = true
  /\ has_tab (statement c) = false.
Proof.
  intros Hrun Hp Hc.
  pose proof (extract_keeps py_int zip_file tidy
                (candidate_body_keeps_tidy zip_file) positions Hrun) as Hall.
  rewrite Forall_forall in Hall. destruct (Hall p Hp) as [_ Hcs].
  rewrite Forall_forall in Hcs. exact (Hcs c Hc).
Qed.

Lemma output_texts_tidy_witness :
  trimmed "Bob" = true /\ trimmed "Count on me" = true
  /\ has_tab "Count on me" = false.
Proof.
  apply (output_texts_tidy int_literal (Sample.unnumbered_row_package "0")
           [mkPosition "Treasurer" "treasurer" "Treasurer"
              [mkCandidate "Bob" "Count on me" None]]
           (mkPosition "Treasurer" "treasurer" "Treasurer"
              [mkCandidate "Bob" "Count on me" None])
           (mkCandidate "Bob" "Count on me" None)).
  - vm_compute. reflexivity.
  - left.
  - left.
Defined.

Lemma emitted_sheets_sublist (py_int : string -> option Z)
  (zip_file : gmap string Member) (shared_strings : list string)
  (targets : list (string * string)) (per_sheet : list (option Position)) :
  Forall2 (fun target emitted =>
             exists rows,
               read_sheet_rows py_int zip_file target.2 shared_strings = Ok rows
               /\ sheet_outcome rows target emitted)
          targets per_sheet ->
  sublist (List.map sheet (omap id per_sheet)) (List.map fst targets).
Proof.
  induction 1 as [|target emitted targets per_sheet (rows & _ & _ & Hp) _ IH];
    [constructor|].
  cbn [omap list_omap List.map]. destruct emitted as [p|]; cbn [id List.map].
  - destruct (Hp p eq_refl) as [-> _]. by constructor.
  - by constructor.
Qed.

(** X5.  In the output of a run that returns, every Position has the display
    title of its sheet (the override when there is one, else the sheet
    name), its slug is the slugified title, and the sheet names of the
    Positions form a subsequence of the names of the sheet targets. *)
Theorem output_positions_shape (py_int : string -> option Z)
  (zip_file : gmap string Member) (sheet_targets : list (string * string))
  (positions : list Position) :
  load_sheet_targets zip_file = Ok sheet_targets ->
  extract py_int zip_file = Ok positions ->
  Forall (fun p => title p = display_title (sheet p)
                   /\ slug p = slugify (title p)
                   /\ is_slug (slug p) = true) positions
  /\ sublist (List.map sheet positions) (List.map fst sheet_targets).
Proof.
  intros Htargets Hrun. split.
  - pose proof (extract_keeps py_int zip_file (fun _ => True)
                  (fun _ _ _ cs' _ _ _ => proj2 (Forall_forall _ cs') (fun _ _ => I))
                  positions Hrun) as Hall.
    eapply Forall_impl; [exact Hall|].
    intros p [[Ht Hs] _]. split; [exact Ht|]. split; [exact Hs|].
    rewrite Hs. apply slugify_shape.
  - unfold extract in Hrun.
    apply rbind_Ok in Hrun as (shared_strings & _ & Hrun).
    rewrite Htargets in Hrun. cbn [rbind] in Hrun.
    destruct (positions_loop_outcome _ _ _ _ _ _ Hrun) as (per_sheet & -> & Hall).
    cbn [app]. by eapply emitted_sheets_sublist.
Qed.

Lemma output_positions_shape_witness :
  Forall (fun p => title p = display_title (sheet p)
                   /\ slug p = slugify (title p)
                   /\ is_slug (slug p) = true)
         [mkPosition "Treasurer" "treasurer" "Treasurer"
            [mkCandidate "Bob" "Count on me" None]]
  /\ sublist ["Treasurer"] ["Secretary"; "Treasurer"].
Proof.
  apply (output_positions_shape int_literal Sample.two_sheet_package
           [("Secretary", "xl/worksheets/sheet1.xml");
            ("Treasurer", "xl/worksheets/sheet2.xml")]
           [mkPosition "Treasurer" "treasurer" "Treasurer"
              [mkCandidate "Bob" "Count on me" None]]).
  - vm_compute. reflexivity.
  - vm_compute. reflexivity.
Defined.

(** ** Row Reader: order, keys, references and errors *)

(** A loop that raises does so in the body, at some element, after the
    elements before it went through. *)
Lemma for_loop_Raise {A S} (body : S -> A -> result S) (xs : list A) (s : S)
  (e : exn) :
  for_loop body xs s = Raise e ->
  exists pre x post t,
    xs = (pre ++ x :: post)%list
    /\ for_loop body pre s = Ok t /\ body t x = Raise e.
Proof.
  revert s. induction xs as [|x xs IH]; intros s H; [discriminate H|].
  cbn [for_loop] in H. destruct (body s x) as [s'|e'] eqn:Hb.
  - cbn [rbind] in H. destruct (IH s' H) as (pre & y & post & t & -> & Hpre & Hy).
    exists (x :: pre), y, post, t. split; [reflexivity|]. split; [|exact Hy].
    cbn [for_loop]. rewrite Hb. exact Hpre.
  - injection H as <-. exists [], x, xs, s. by repeat split.
Qed.

Section RowReaderMore.
Variables (py_int : string -> option Z) (shared_strings : list string).

Lemma read_row_index (rows rows' : list (Z * gmap string string)) (row : Element) :
  read_row py_int shared_strings rows row = Ok rows' ->
  exists row_idx cells,
    declared_row_index py_int row = Some row_idx
    /\ for_loop (read_cell py_int shared_strings) (findall Tag.c row) ∅ = Ok cells
    /\ rows' = (rows ++ [(row_idx, cells)])%list.
Proof.
  unfold read_row, int_of_str, declared_row_index. intros H.
  destruct (py_int _) as [row_idx|]; [|discriminate H]. cbn [rbind] in H.
  apply rbind_Ok in H as (cells & Hcells & H). injection H as <-.
  by exists row_idx, cells.
Qed.

Lemma rows_loop_indices (elements : list Element)
  (rows rows' : list (Z * gmap string string)) :
  for_loop (read_row py_int shared_strings) elements rows = Ok rows' ->
  exists added,
    rows' = (rows ++ added)%list
    /\ Forall2 (fun element row => declared_row_index py_int element = Some row.1)
               elements added.
Proof.
  revert rows. induction elements as [|element elements IH]; intros rows H.
  - injection H as <-. exists []. split; [by rewrite app_nil_r | constructor].
  - cbn [for_loop] in H. apply rbind_Ok in H as (mid & Hrow & H).
    destruct (read_row_index _ _ _ Hrow) as (row_idx & cells & Hidx & _ & ->).
    destruct (IH _ H) as (added & -> & Hall).
    exists ((row_idx, cells) :: added). split; [by rewrite <- app_assoc|].
    by constructor.
Qed.

Lemma filter_chars_forallb (p : ascii -> bool) (s : string) :
  forallb p (Str.chars (Str.filter_chars p s)) = true.
Proof.
  unfold Str.filter_chars. rewrite chars_of_chars.
  induction (Str.chars s) as [|c l IH]; simpl; [done|].
  destruct (p c) eqn:Hc; simpl; [by rewrite Hc|exact IH].
Qed.

Lemma read_cell_keeps_keys (cells cells' : gmap string string) (cell : Element) :
  (forall k v, cells !! k = Some v -> column_key k) ->
  read_cell py_int shared_strings cells cell = Ok cells' ->
  forall k v, cells' !! k = Some v -> column_key k.
Proof.
  intros Hkeys H. unfold read_cell in H.
  destruct (find Tag.v cell) as [value_element|]; [|by injection H as <-].
  destruct (Str.eqb _ "") eqn:Hcol; [by injection H as <-|].
  apply rbind_Ok in H as (raw & _ & H). injection H as <-.
  intros k v Hk.
  destruct (decide (Str.filter_chars Str.isalpha (default "" (attrib cell !! "r")) = k))
    as [<-|Hne].
  - split; [by apply String.eqb_neq in Hcol | apply filter_chars_forallb].
  - rewrite lookup_insert_ne in Hk by done. by eapply Hkeys.
Qed.

End RowReaderMore.

(** X6.  The Row Reader returns one row per row element of the sheet
    document, in document order, each with the integer read from the
    element's [r] attribute (from ["0"] when there is none); rows are never
    re-sorted or merged. *)
Theorem read_sheet_rows_document_order
  (py_int : string -> option Z) (zip_file : gmap string Member)
  (sheet_path : string) (shared_strings : list string) (root : Element)
  (rows : list (Z * gmap string string)) :
  zip_file !! sheet_path = Some (Xml root) ->
  read_sheet_rows py_int zip_file sheet_path shared_strings = Ok rows ->
  Forall2 (fun element row => declared_row_index py_int element = Some row.1)
          (findall_desc Tag.row root) rows.
Proof.
  intros Hzip H. unfold read_sheet_rows, read_xml, zip_read in H.
  rewrite Hzip in H. cbn [rbind fromstring] in H.
  destruct (rows_loop_indices _ _ _ _ _ H) as (added & -> & Hall). exact Hall.
Qed.

(** X7.  Every key of the cell mapping of every row returned by the Row
    Reader is a non-empty text of alphabetic characters: the letters of a
    cell coordinate, never the empty text and never with a digit. *)
Theorem read_sheet_rows_column_keys
  (py_int : string -> option Z) (zip_file : gmap string Member)
  (sheet_path : string) (shared_strings : list string)
  (rows : list (Z * gmap string string)) (row : Z * gmap string string)
  (k v : string) :
  read_sheet_rows py_int zip_file sheet_path shared_strings = Ok rows ->
  row ∈ rows -> row.2 !! k = Some v ->
  k <> "" /\ forallb Str.isalpha (Str.chars k) = true.
Proof.
  intros H Hrow Hk. unfold read_sheet_rows in H.
  apply rbind_Ok in H as (root & _ & H).
  assert (Hall : Forall (fun r => forall k v, r.2 !! k = Some v -> column_key k) rows).
  { eapply (for_loop_invariant _
              (Forall (fun r => forall k v, r.2 !! k = Some v -> column_key k)));
      [constructor| |exact H].
    intros element t t' _ Ht Hbody.
    destruct (read_row_index _ _ _ _ _ Hbody) as (row_idx & cells & _ & Hcells & ->).
    apply Forall_app. split; [exact Ht|]. constructor; [|constructor]. cbn [snd].
    eapply (for_loop_invariant _
              (fun c : gmap string string =>
                 forall k v, c !! k = Some v -> column_key k));
      [| |exact Hcells].
    - intros k' v' Hk'. by rewrite lookup_empty in Hk'.
    - intros cell c c' _. apply read_cell_keeps_keys. }
  rewrite Forall_forall in Hall. exact (Hall row Hrow k v Hk).
Qed.

Lemma read_sheet_rows_document_order_witness :
  exists rows,
    read_sheet_rows int_literal Sample.package "xl/worksheets/sheet1.xml"
      ["Name"; "Statement"; "Alice"; "Vote for me"] = Ok rows
    /\ List.map fst rows = [1; 3; 4]
    /\ Forall2 (fun element row => declared_row_index int_literal element = Some row.1)
         [Sample.row (Some "1") [Sample.cell (Some "A1") (Some "s") "0";
                                 Sample.cell (Some "C1") (Some "s") "1"];
          Sample.row (Some "3") [Sample.cell (Some "A3") (Some "s") "2";
                                 Sample.cell (Some "C3") (Some "s") "3"];
          Sample.row (Some "4") [Sample.cell (Some "A4") None "  ";
                                 Sample.cell (Some "C4") None "ignored"]]
         rows.
Proof.
  eexists. split; [vm_compute; reflexivity|]. split; [reflexivity|].
  refine (read_sheet_rows_document_order int_literal Sample.package
            "xl/worksheets/sheet1.xml" ["Name"; "Statement"; "Alice"; "Vote for me"]
            (Sample.worksheet_root
               [Sample.row (Some "1") [Sample.cell (Some "A1") (Some "s") "0";
                                       Sample.cell (Some "C1") (Some "s") "1"];
                Sample.row (Some "3") [Sample.cell (Some "A3") (Some "s") "2";
                                       Sample.cell (Some "C3") (Some "s") "3"];
                Sample.row (Some "4") [Sample.cell (Some "A4") None "  ";
                                       Sample.cell (Some "C4") None "ignored"]])
            _ _ _).
  - vm_compute. reflexivity.
  - vm_compute. reflexivity.
Defined.

Lemma read_sheet_rows_column_keys_witness :
  "B" <> "" /\ forallb Str.isalpha (Str.chars "B") = true.
Proof.
  apply (read_sheet_rows_column_keys int_literal Sample.one_reference_sheet
           "xl/worksheets/sheet1.xml" ["first"; "second"]
           [(2, {[ "B" := "second" ]})] (2, {[ "B" := "second" ]}) "B" "second").
  - vm_compute. reflexivity.
  - left.
  - vm_compute. reflexivity.
Defined.


Lemma list_index_nonneg {A} (l : list A) (i : Z) :
  0 <= i < Z.of_nat (length l) ->
  exists x, l !! Z.to_nat i = Some x /\ list_index l i = Ok x.
Proof.
  intros Hi. unfold list_index.
  destruct (Z.ltb_spec i 0); [lia|].
  destruct (Z.leb_spec 0 i); [|lia].
  destruct (Z.ltb_spec i (Z.of_nat (length l))); [|lia]. cbn [andb].
  destruct (lookup_lt_is_Some_2 l (Z.to_nat i)) as [x Hx]; [lia|].
  exists x. by rewrite Hx.
Qed.

Lemma list_index_negative {A} (l : list A) (i : Z) :
  - Z.of_nat (length l) <= i < 0 ->
  exists x, l !! Z.to_nat (Z.of_nat (length l) + i) = Some x
            /\ list_index l i = Ok x.
Proof.
  intros Hi. unfold list_index.
  destruct (Z.ltb_spec i 0); [|lia].
  destruct (Z.leb_spec 0 (i + Z.of_nat (length l))); [|lia].
  destruct (Z.ltb_spec (i + Z.of_nat (length l)) (Z.of_nat (length l))); [|lia].
  cbn [andb]. rewrite (Z.add_comm i).
  destruct (lookup_lt_is_Some_2 l (Z.to_nat (Z.of_nat (length l) + i))) as [x Hx];
    [lia|].
  exists x. by rewrite Hx.
Qed.

Lemma list_index_outside {A} (l : list A) (i : Z) :
  i < - Z.of_nat (length l) \/ Z.of_nat (length l) <= i ->
  list_index l i = Raise IndexError.
Proof.
  intros Hi. unfold list_index. destruct (Z.ltb_spec i 0).
  - destruct (Z.leb_spec 0 (i + Z.of_nat (length l))); [lia | reflexivity].
  - destruct (Z.leb_spec 0 i); [|lia].
    destruct (Z.ltb_spec i (Z.of_nat (length l))); [lia | reflexivity].
Qed.

(** X8.  A shared-string cell with a value and a column letter whose value
    reads as the integer [i] gets the table entry at [i] when [i] is a valid
    position, the entry counted from the end of the table when [i] is
    negative and not below minus the table length, and makes the reader
    raise [IndexError] for every other [i]. *)
Theorem shared_reference_lookup
  (py_int : string -> option Z) (shared_strings : list string)
  (cells : gmap string string) (cell value_element : Element) (i : Z) :
  let col := Str.filter_chars Str.isalpha (default "" (attrib cell !! "r")) in
  let n := Z.of_nat (length shared_strings) in
  attrib cell !! "t" = Some "s" ->
  find Tag.v cell = Some value_element ->
  col <> "" ->
  py_int (Str.or_empty (text value_element)) = Some i ->
  (0 <= i < n ->
   exists x, shared_strings !! Z.to_nat i = Some x
             /\ read_cell py_int shared_strings cells cell = Ok (<[col := x]> cells))
  /\ (- n <= i < 0 ->
      exists x, shared_strings !! Z.to_nat (n + i) = Some x
                /\ read_cell py_int shared_strings cells cell = Ok (<[col := x]> cells))
  /\ (i < - n \/ n <= i ->
      read_cell py_int shared_strings cells cell = Raise IndexError).
Proof.
  intros col n Ht Hv Hcol Hi.
  assert (Hcell : read_cell py_int shared_strings cells cell
                  = let* x := list_index shared_strings i in Ok (<[col := x]> cells)).
  { unfold read_cell, int_of_str. rewrite Hv, Ht. fold col.
    destruct (Str.eqb col "") eqn:Hc; [by apply String.eqb_eq in Hc|].
    rewrite bool_decide_eq_true_2 by reflexivity. rewrite Hi. cbn [rbind].
    by destruct (list_index shared_strings i). }
  rewrite Hcell. split; [|split].
  - intros H. destruct (list_index_nonneg shared_strings i H) as (x & Hx & ->). eauto.
  - intros H. destruct (list_index_negative shared_strings i H) as (x & Hx & ->). eauto.
  - intros H. by rewrite list_index_outside.
Qed.

Lemma shared_reference_lookup_witness :
  read_cell int_literal ["first"; "second"] ∅ (Sample.cell (Some "B2") (Some "s") "1")
  = Ok {[ "B" := "second" ]}
  /\ read_cell int_literal ["first"; "second"] ∅ (Sample.cell (Some "A1") (Some "s") "-1")
     = Ok {[ "A" := "second" ]}
  /\ read_cell int_literal ["first"; "second"] ∅ (Sample.cell (Some "B2") (Some "s") "2")
     = Raise IndexError.
Proof.
  split; [|split].
  - destruct (shared_reference_lookup int_literal ["first"; "second"] ∅
                (Sample.cell (Some "B2") (Some "s") "1")
                (Sample.el Tag.v [] (Some "1") []) 1) as (H & _ & _);
      [reflexivity | reflexivity | vm_compute; discriminate | reflexivity |].
    destruct H as (x & Hx & ->); [simpl; lia|].
    vm_compute in Hx. injection Hx as <-. vm_compute. reflexivity.
  - destruct (shared_reference_lookup int_literal ["first"; "second"] ∅
                (Sample.cell (Some "A1") (Some "s") "-1")
                (Sample.el Tag.v [] (Some "-1") []) (-1)) as (_ & H & _);
      [reflexivity | reflexivity | vm_compute; discriminate | reflexivity |].
    destruct H as (x & Hx & ->); [simpl; lia|].
    vm_compute in Hx. injection Hx as <-. vm_compute. reflexivity.
  - destruct (shared_reference_lookup int_literal ["first"; "second"] ∅
                (Sample.cell (Some "B2") (Some "s") "2")
                (Sample.el Tag.v [] (Some "2") []) 2) as (_ & _ & H);
      [reflexivity | reflexivity | vm_compute; discriminate | reflexivity |].
    apply H. right. simpl. lia.
Defined.



(** ** Relationship maps *)

Section RelMap.
Variable f : string -> string.

Lemma rel_map_body_Ok (rel_map rel_map' : gmap string string) (rel : Element) :
  rel_map_body f rel_map rel = Ok rel_map' ->
  exists id target,
    attrib rel !! "Id" = Some id /\ attrib rel !! "Target" = Some target
    /\ rel_map' = <[id := f target]> rel_map.
Proof.
  unfold rel_map_body, getitem. intros H.
  destruct (attrib rel !! "Id") as [id|]; cbn [rbind] in H; [|discriminate H].
  destruct (attrib rel !! "Target") as [target|]; cbn [rbind] in H;
    [|discriminate H].
  injection H as <-. by exists id, target.
Qed.

Lemma rel_map_body_Raise (rel_map : gmap string string) (rel : Element) (e : exn) :
  rel_map_body f rel_map rel = Raise e -> e = KeyError /\ incomplete_rel rel.
Proof.
  unfold rel_map_body, getitem, incomplete_rel. intros H.
  destruct (attrib rel !! "Id") as [id|]; cbn [rbind] in H;
    [|split; [congruence|by left]].
  destruct (attrib rel !! "Target") as [target|]; cbn [rbind] in H;
    [discriminate H|].
  split; [congruence | by right].
Qed.

Lemma rel_map_loop_entries (rels : list Element) (m : gmap string string) :
  for_loop (rel_map_body f) rels ∅ = Ok m ->
  forall k v, m !! k = Some v ->
    exists rel target,
      rel ∈ rels /\ attrib rel !! "Id" = Some k
      /\ attrib rel !! "Target" = Some target /\ v = f target.
Proof.
  intros Hrun.
  apply (for_loop_invariant (rel_map_body f)
           (fun t => forall k v, t !! k = Some v ->
              exists rel target,
                rel ∈ rels /\ attrib rel !! "Id" = Some k
                /\ attrib rel !! "Target" = Some target /\ v = f target)
           rels ∅ m); [| |exact Hrun].
  - intros k v Hk. by rewrite lookup_empty in Hk.
  - intros rel t t' Hin Ht Hbody.
    apply rel_map_body_Ok in Hbody as (id & target & Hid & Htarget & ->).
    intros k v Hk. destruct (decide (id = k)) as [<-|Hne].
    + rewrite lookup_insert_eq in Hk. injection Hk as <-. by exists rel, target.
    + rewrite lookup_insert_ne in Hk by done. by apply Ht.
Qed.

Lemma rel_map_loop_untouched (post : list Element) (m0 m : gmap string string)
  (k : string) :
  (forall rel, rel ∈ post -> attrib rel !! "Id" <> Some k) ->
  for_loop (rel_map_body f) post m0 = Ok m -> m !! k = m0 !! k.
Proof.
  intros Hpost Hrun.
  apply (for_loop_invariant (rel_map_body f) (fun t => t !! k = m0 !! k) post m0 m);
    [reflexivity| |exact Hrun].
  intros rel t t' Hin Ht Hbody.
  apply rel_map_body_Ok in Hbody as (id & target & Hid & _ & ->).
  rewrite lookup_insert_ne; [exact Ht|]. intros ->. by apply (Hpost rel Hin).
Qed.

End RelMap.

(** X10.  A relationship map that gets built binds an id to the transformed
    target of the last relationship that declares the id, and holds nothing
    but the ids declared by the relationship elements. *)
Theorem rel_map_last_declaration
  (f : string -> string) (rels : list Element) (m : gmap string string) :
  build_rel_map f rels = Ok m ->
  (forall pre rel post id target,
     rels = (pre ++ rel :: post)%list ->
     attrib rel !! "Id" = Some id -> attrib rel !! "Target" = Some target ->
     (forall later, later ∈ post -> attrib later !! "Id" <> Some id) ->
     m !! id = Some (f target))
  /\ (forall id v, m !! id = Some v ->
        exists rel target,
          rel ∈ rels /\ attrib rel !! "Id" = Some id
          /\ attrib rel !! "Target" = Some target /\ v = f target).
Proof.
  unfold build_rel_map. intros Hrun. split.
  - intros pre rel post id target -> Hid Htarget Hpost.
    apply for_loop_split in Hrun as (t & u & _ & Hbody & Hrest).
    apply rel_map_body_Ok in Hbody as (id' & target' & Hid' & Htarget' & ->).
    rewrite (rel_map_loop_untouched f post _ m id Hpost Hrest).
    assert (id' = id) as -> by congruence.
    assert (target' = target) as -> by congruence.
    apply lookup_insert_eq.
  - by apply rel_map_loop_entries.
Qed.

Lemma rel_map_last_declaration_witness :
  exists m,
    build_rel_map (fun t => Path.normpath (Path.join "xl/drawings" [t]))
      [Sample.relationship "rId1" (Sample.type_of "image") "../media/old.png";
       Sample.relationship "rId2" (Sample.type_of "image") "../media/image2.jpeg";
       Sample.relationship "rId1" (Sample.type_of "image") "../media/new.png"] = Ok m
    /\ m !! "rId1" = Some "xl/media/new.png".
Proof.
  eexists. split; [vm_compute; reflexivity|].
  eapply (proj1 (rel_map_last_declaration
                   (fun t => Path.normpath (Path.join "xl/drawings" [t])) _ _ _)
            [Sample.relationship "rId1" (Sample.type_of "image") "../media/old.png";
             Sample.relationship "rId2" (Sample.type_of "image") "../media/image2.jpeg"]
            (Sample.relationship "rId1" (Sample.type_of "image") "../media/new.png")
            [] "rId1" "../media/new.png").
  - reflexivity.
  - vm_compute. reflexivity.
  - vm_compute. reflexivity.
  - intros later Hin. inversion Hin.
  Unshelve. vm_compute. reflexivity.
Defined.

(** X11.  Building a relationship map fails exactly when some relationship
    element lacks its [Id] or its [Target] attribute, and then with
    [KeyError]. *)
Theorem rel_map_incomplete_relationship
  (f : string -> string) (rels : list Element) :
  (Exists incomplete_rel rels <-> build_rel_map f rels = Raise KeyError)
  /\ (forall e, build_rel_map f rels = Raise e -> e = KeyError).
Proof.
  unfold build_rel_map.
  assert (Herr : forall e, for_loop (rel_map_body f) rels ∅ = Raise e ->
                           e = KeyError /\ Exists incomplete_rel rels).
  { intros e H. apply for_loop_Raise in H as (pre & rel & post & t & -> & _ & H).
    apply rel_map_body_Raise in H as [-> Hrel]. split; [reflexivity|].
    apply Exists_app. right. by left. }
  split; [split|].
  - intros Hex.
    destruct (for_loop (rel_map_body f) rels ∅) as [m|e] eqn:Hrun.
    + exfalso. apply Exists_exists in Hex as (rel & Hin & Hrel).
      apply list_elem_of_split in Hin as (pre & post & ->).
      apply for_loop_split in Hrun as (t & u & _ & Hbody & _).
      apply rel_map_body_Ok in Hbody as (id & target & Hid & Htarget & _).
      destruct Hrel; congruence.
    + by destruct (Herr e eq_refl) as [-> _].
  - intros H. by destruct (Herr _ H).
  - intros e H. by destruct (Herr _ H).
Qed.

Lemma rel_map_incomplete_relationship_witness :
  build_rel_map (fun t => t)
    [Sample.relationship "rId1" (Sample.type_of "worksheet") "worksheets/sheet1.xml";
     Sample.el Tag.Relationship [("Id", "rId2")] None []] = Raise KeyError.
Proof.
  apply (proj1 (rel_map_incomplete_relationship (fun t => t) _)).
  apply Exists_cons_tl, Exists_cons_hd. right. vm_compute. reflexivity.
Defined.

(** ** Anchor Mapper: what the map holds, and unreadable rows *)

(** X12.  Every entry of the anchor map comes from an anchor of the drawing:
    under key [k] stands the image of an anchor that contributes at row
    [k - 1], and that image is the normalized path, relative to the
    drawing's directory, of the target of a relationship of the drawing;
    it is never the empty text. *)
Theorem anchor_map_entries_sound
  (py_int : string -> option Z) (zip_file : gmap string Member)
  (drawing_path : string) (rel_root drawing : Element)
  (rel_map : gmap string string) (m : gmap Z string)
  (k : Z) (image_path : string) :
  zip_file !! rels_path drawing_path = Some (Xml rel_root) ->
  build_rel_map
    (fun target => Path.normpath (Path.join (Path.dirname drawing_path) [target]))
    (findall Tag.Relationship rel_root) = Ok rel_map ->
  zip_file !! drawing_path = Some (Xml drawing) ->
  map_anchor_rows_to_images py_int zip_file drawing_path = Ok m ->
  m !! k = Some image_path ->
  (exists anchor,
     anchor ∈ children drawing
     /\ anchor_picture py_int rel_map anchor = Some (k - 1, image_path))
  /\ (exists rel target,
        rel ∈ findall Tag.Relationship rel_root
        /\ attrib rel !! "Target" = Some target
        /\ image_path
           = Path.normpath (Path.join (Path.dirname drawing_path) [target]))
  /\ image_path <> "".
Proof.
  intros Hrels Hmap Hdrawing Hrun Hk.
  pose proof (anchor_map_truthy py_int zip_file drawing_path rel_root drawing
                rel_map Hrels Hmap Hdrawing m k image_path Hrun Hk) as Htruthy.
  rewrite (map_anchor_rows_to_images_loop py_int zip_file drawing_path rel_root
             drawing rel_map Hrels Hmap Hdrawing) in Hrun.
  destruct (anchors_loop_entries py_int rel_map _ m Hrun k image_path Hk)
    as (anchor & Hin & Hpic).
  split; [by exists anchor|]. split; [|by apply truthy_true_iff].
  unfold anchor_picture in Hpic.
  destruct (find Tag.from anchor) as [from_cell|]; simpl in Hpic; [|discriminate Hpic].
  destruct (find Tag.pic anchor) as [pic|]; simpl in Hpic; [|discriminate Hpic].
  destruct (find Tag.xdr_row from_cell) as [row|]; simpl in Hpic; [|discriminate Hpic].
  destruct (text row) as [row_text|]; simpl in Hpic; [|discriminate Hpic].
  destruct (py_int row_text) as [z|]; simpl in Hpic; [|discriminate Hpic].
  destruct (find_desc Tag.blip pic) as [blip|]; simpl in Hpic; [|discriminate Hpic].
  destruct (attrib blip !! Tag.r_embed) as [embed_id|]; simpl in Hpic;
    [|discriminate Hpic].
  destruct (rel_map !! embed_id) as [image|] eqn:Himage; simpl in Hpic;
    [|discriminate Hpic].
  destruct (Str.truthy image); [|discriminate Hpic]. injection Hpic as _ ->.
  unfold build_rel_map in Hmap.
  destruct (rel_map_loop_entries _ _ _ Hmap embed_id image_path Himage)
    as (rel & target & Hrel & _ & Htarget & ->).
  by exists rel, target.
Qed.

Lemma anchor_map_entries_sound_witness :
  (exists anchor,
     anchor ∈ [Sample.anchor "2" "rId1"]
     /\ anchor_picture int_literal {[ "rId1" := "xl/media/image1.png" ]} anchor
        = Some (3 - 1, "xl/media/image1.png"))
  /\ (exists rel target,
        rel ∈ [Sample.relationship "rId1" (Sample.type_of "image") "../media/image1.png"]
        /\ attrib rel !! "Target" = Some target
        /\ "xl/media/image1.png"
           = Path.normpath (Path.join (Path.dirname "xl/drawings/drawing1.xml") [target]))
  /\ "xl/media/image1.png" <> "".
Proof.
  apply (anchor_map_entries_sound int_literal Sample.package
           "xl/drawings/drawing1.xml"
           (Sample.relationships_root
              [Sample.relationship "rId1" (Sample.type_of "image") "../media/image1.png"])
           (Sample.drawing_root [Sample.anchor "2" "rId1"])
           {[ "rId1" := "xl/media/image1.png" ]}
           {[ 3 := "xl/media/image1.png" ]} 3 "xl/media/image1.png").
  - vm_compute. reflexivity.
  - vm_compute. reflexivity.
  - vm_compute. reflexivity.
  - vm_compute. reflexivity.
  - vm_compute. reflexivity.
Defined.

Lemma anchor_body_unreadable_row (py_int : string -> option Z)
  (rel_map : gmap string string) (anchors : gmap Z string)
  (anchor from_cell pic : Element) :
  find Tag.from anchor = Some from_cell ->
  find Tag.pic anchor = Some pic ->
  anchor_row py_int from_cell = None ->
  raises (anchor_body py_int rel_map anchors anchor).
Proof.
  intros Hfrom Hpic Hrow. unfold anchor_body. rewrite Hfrom, Hpic.
  apply rbind_raises. unfold anchor_row in Hrow.
  destruct (find Tag.xdr_row from_cell) as [row|]; [|by eexists].
  simpl in Hrow. unfold int_of_text, int_of_str.
  destruct (text row) as [row_text|]; [|by eexists].
  simpl in Hrow. rewrite Hrow. by eexists.
Qed.

(** X13.  An anchor with a from-cell position and a picture whose row cannot
    be read (no row element, no text in it, or text that is not an integer)
    makes the Anchor Mapper raise, also when the picture has no blip or an
    unresolvable embed reference, because the row is read first. *)
Theorem anchor_unreadable_row_fatal
  (py_int : string -> option Z) (zip_file : gmap string Member)
  (drawing_path : string) (drawing anchor from_cell pic : Element) :
  zip_file !! drawing_path = Some (Xml drawing) ->
  anchor ∈ children drawing ->
  find Tag.from anchor = Some from_cell ->
  find Tag.pic anchor = Some pic ->
  anchor_row py_int from_cell = None ->
  raises (map_anchor_rows_to_images py_int zip_file drawing_path).
Proof.
  intros Hdrawing Hin Hfrom Hpic Hrow. unfold map_anchor_rows_to_images.
  apply rbind_raises_k. intros rel_root.
  apply rbind_raises_k. intros rel_map.
  unfold read_xml, zip_read. rewrite Hdrawing. cbn [rbind fromstring].
  apply (for_loop_raises _ _ anchor); [exact Hin|].
  intros anchors. by eapply anchor_body_unreadable_row.
Qed.

Lemma anchor_unreadable_row_fatal_witness :
  raises (map_anchor_rows_to_images int_literal Sample.rowless_package
            "xl/drawings/drawing1.xml").
Proof.
  apply (anchor_unreadable_row_fatal int_literal Sample.rowless_package
           "xl/drawings/drawing1.xml"
           (Sample.drawing_root [Sample.anchor "2" "rId1"; Sample.rowless_anchor])
           Sample.rowless_anchor
           (Sample.el Tag.from [] None
              [Sample.el (NS.qname NS.xdr "col") [] (Some "1") []])
           (Sample.el Tag.pic [] None [])).
  - vm_compute. reflexivity.
  - right. left.
  - vm_compute. reflexivity.
  - vm_compute. reflexivity.
  - vm_compute. reflexivity.
Defined.

(** ** Drawing Locator and path resolution *)

Lemma normpath_nonempty (path : string) : Path.normpath path <> "".
Proof.
  unfold Path.normpath. destruct (negb (Str.truthy path)); [discriminate|].
  match goal with
  | |- (if Str.truthy ?out then _ else _) <> _ =>
      destruct (Str.truthy out) eqn:Hout; [by apply truthy_true_iff | discriminate]
  end.
Qed.

Lemma find_drawing_loop_None (sheet_path : string) (rels : list Element) :
  find_drawing_loop sheet_path rels = Ok None
  <-> Forall (fun rel => is_drawing_rel rel = false) rels.
Proof.
  induction rels as [|rel rels IH]; simpl; [split; [constructor | done]|].
  fold (is_drawing_rel rel). destruct (is_drawing_rel rel) eqn:Hrel.
  - split.
    + intros H. unfold getitem in H.
      destruct (attrib rel !! "Target"); cbn [rbind] in H; congruence.
    + intros H. apply Forall_cons in H as [H _]. congruence.
  - rewrite IH. split; [by constructor | by intros H; apply Forall_cons in H as [_ H]].
Qed.

Lemma find_drawing_loop_Some (sheet_path : string) (rels : list Element) (p : string) :
  find_drawing_loop sheet_path rels = Ok (Some p) -> p <> "".
Proof.
  induction rels as [|rel rels IH]; simpl; [discriminate|].
  destruct (Str.endswith _ _); [|exact IH].
  unfold getitem. destruct (attrib rel !! "Target"); cbn [rbind]; [|discriminate].
  intros [= <-]. apply normpath_nonempty.
Qed.

(** X14.  The Drawing Locator returns "none" exactly when the sheet has no
    relationship file, or has one whose relationships all have a type that
    does not end in "/drawing"; a path it returns is never the empty text,
    so the orchestrator's test of the path never discards a located
    drawing. *)
Theorem find_drawing_path_none
  (zip_file : gmap string Member) (sheet_path : string) :
  (find_drawing_path zip_file sheet_path = Ok None
   <-> zip_file !! rels_path sheet_path = None
       \/ exists rel_root,
            zip_file !! rels_path sheet_path = Some (Xml rel_root)
            /\ Forall (fun rel => is_drawing_rel rel = false)
                      (findall Tag.Relationship rel_root))
  /\ (forall p, find_drawing_path zip_file sheet_path = Ok (Some p) ->
                Str.truthy p = true).
Proof.
  unfold find_drawing_path, in_namelist, read_xml, zip_read.
  destruct (zip_file !! rels_path sheet_path) as [[rel_root|data]|] eqn:Hzip.
  - rewrite bool_decide_eq_true_2 by eauto. cbn [negb rbind fromstring]. split.
    + rewrite find_drawing_loop_None. split.
      * intros H. right. by exists rel_root.
      * intros [H|(r & [= <-] & H)]; [discriminate H | exact H].
    + intros p H. apply truthy_true_iff. by eapply find_drawing_loop_Some.
  - rewrite bool_decide_eq_true_2 by eauto. cbn [negb rbind fromstring]. split.
    + split; [discriminate|]. intros [H|(r & H & _)]; discriminate H.
    + discriminate.
  - rewrite bool_decide_eq_false_2 by (by intros [? ?]). cbn [negb]. split.
    + split; [by left | reflexivity].
    + discriminate.
Qed.

Lemma find_drawing_path_none_witness :
  find_drawing_path Sample.header_only_package "xl/worksheets/sheet1.xml" = Ok None
  /\ Str.truthy "xl/drawings/drawing1.xml" = true.
Proof.
  split.
  - apply (proj1 (find_drawing_path_none Sample.header_only_package
                    "xl/worksheets/sheet1.xml")).
    left. vm_compute. reflexivity.
  - apply (proj2 (find_drawing_path_none Sample.package "xl/worksheets/sheet1.xml")).
    vm_compute. reflexivity.
Defined.

Lemma normpath_absolute (path : string) :
  Str.startswith path "/" = true -> Str.startswith (Path.normpath path) "/" = true.
Proof.
  intros H. unfold Path.normpath.
  destruct path as [|c path]; [discriminate H|].
  change (Str.truthy (String c path)) with true. cbn [negb].
  rewrite H.
  match goal with
  | |- Str.startswith (if Str.truthy ?out then _ else _) _ = _ =>
      assert (Hout : exists rest, out = String "/" rest)
  end.
  { destruct (_ && _)%bool; cbn; eauto. }
  destruct Hout as [rest Hout]. rewrite Hout.
  change (Str.truthy (String "/" rest)) with true. cbv iota.
  by destruct rest.
Qed.

(** X15.  A sheet relationship target that starts with a slash is not
    resolved under [xl/]: the Sheet Target Loader returns its own normalized
    form, which still starts with a slash, so the sheet is then looked up in
    the package under a name with a leading slash. *)
Theorem absolute_target_kept
  (rel_map : gmap string string) (sheets : list (string * string))
  (sheet : Element) (rel_id target : string) :
  attrib sheet !! Tag.r_id = Some rel_id ->
  rel_map !! rel_id = Some target ->
  Str.startswith target "/" = true ->
  sheet_targets_body rel_map sheets sheet
  = Ok (sheets ++ [(default target (attrib sheet !! "name"), Path.normpath target)])%list
  /\ Str.startswith (Path.normpath target) "/" = true.
Proof.
  intros Hid Htarget Habs. split; [|by apply normpath_absolute].
  unfold sheet_targets_body, get_opt. rewrite Hid, Htarget.
  destruct target as [|c target]; [discriminate Habs|].
  change (Str.truthy (String c target)) with true. cbn [negb].
  unfold Path.join. cbn [fold_left]. unfold Path.join2. by rewrite Habs.
Qed.

Lemma absolute_target_kept_witness :
  load_sheet_targets Sample.absolute_target_package
  = Ok [("Treasurer", "/xl/worksheets/sheet1.xml")]
  /\ sheet_targets_body {[ "rId1" := "/xl/worksheets/sheet1.xml" ]} []
       (Sample.el (NS.qname NS.main "sheet")
          [("name", "Treasurer"); (Tag.r_id, "rId1")] None [])
     = Ok ([] ++ [(default "/xl/worksheets/sheet1.xml" (Some "Treasurer"),
                   Path.normpath "/xl/worksheets/sheet1.xml")])%list
  /\ extract int_literal Sample.absolute_target_package = Raise KeyError.
Proof.
  split; [vm_compute; reflexivity|]. split; [|vm_compute; reflexivity].
  apply (absolute_target_kept {[ "rId1" := "/xl/worksheets/sheet1.xml" ]} []
           (Sample.el (NS.qname NS.main "sheet")
              [("name", "Treasurer"); (Tag.r_id, "rId1")] None [])
           "rId1" "/xl/worksheets/sheet1.xml"); vm_compute; reflexivity.
Defined.

(** ** Extraction Orchestrator: failures and headshot files *)

Lemma find_drawing_path_Some (zip_file : gmap string Member)
  (sheet_path drawing_path : string) :
  find_drawing_path zip_file sheet_path = Ok (Some drawing_path) ->
  Str.truthy drawing_path = true.
Proof.
  unfold find_drawing_path. destruct (negb _); [discriminate|].
  intros H. apply rbind_Ok in H as (rel_root & _ & H).
  apply truthy_true_iff. by eapply find_drawing_loop_Some.
Qed.

Lemma position_body_raises (py_int : string -> option Z)
  (zip_file : gmap string Member) (shared_strings : list string)
  (positions : list Position) (target : string * string) :
  raises (find_drawing_path zip_file target.2)
  \/ (exists drawing_path,
        find_drawing_path zip_file target.2 = Ok (Some drawing_path)
        /\ raises (map_anchor_rows_to_images py_int zip_file drawing_path))
  \/ raises (read_sheet_rows py_int zip_file target.2 shared_strings) ->
  raises (position_body py_int zip_file shared_strings positions target).
Proof.
  destruct target as [sheet_name sheet_path]. cbn [snd]. unfold position_body.
  intros [H|[(drawing_path & Hfind & H)|H]].
  - by apply rbind_raises.
  - rewrite Hfind. cbn [rbind]. apply rbind_raises.
    by rewrite (find_drawing_path_Some zip_file sheet_path drawing_path Hfind).
  - apply rbind_raises_k. intros drawing_path.
    apply rbind_raises_k. intros row_image_map.
    by apply rbind_raises.
Qed.

(** X16.  There is no per-sheet recovery: when locating the drawing, mapping
    its anchors or reading the rows raises for any one sheet target, the
    whole extraction raises and [main] ends with the exception uncaught. *)
Theorem failing_sheet_aborts_run
  (py_int : string -> option Z) (zip_file : gmap string Member)
  (shared_strings : list string) (sheet_targets : list (string * string))
  (target : string * string) :
  load_shared_strings zip_file = Ok shared_strings ->
  load_sheet_targets zip_file = Ok sheet_targets ->
  target ∈ sheet_targets ->
  raises (find_drawing_path zip_file target.2)
  \/ (exists drawing_path,
        find_drawing_path zip_file target.2 = Ok (Some drawing_path)
        /\ raises (map_anchor_rows_to_images py_int zip_file drawing_path))
  \/ raises (read_sheet_rows py_int zip_file target.2 shared_strings) ->
  raises (extract py_int zip_file)
  /\ exists e, main py_int (Some zip_file) = Uncaught e.
Proof.
  intros Hshared Htargets Hin Hfail.
  assert (Hraise : raises (extract py_int zip_file)).
  { unfold extract. rewrite Hshared, Htargets. cbn [rbind].
    apply (for_loop_raises _ _ target); [exact Hin|].
    intros positions. by apply position_body_raises. }
  split; [exact Hraise|]. destruct Hraise as [e He].
  exists e. unfold main. by rewrite He.
Qed.

Lemma failing_sheet_aborts_run_witness :
  raises (extract int_literal Sample.absolute_target_package)
  /\ exists e, main int_literal (Some Sample.absolute_target_package) = Uncaught e.
Proof.
  apply (failing_sheet_aborts_run int_literal Sample.absolute_target_package
           [] [("Treasurer", "/xl/worksheets/sheet1.xml")]
           ("Treasurer", "/xl/worksheets/sheet1.xml")).
  - vm_compute. reflexivity.
  - vm_compute. reflexivity.
  - left.
  - right. right. exists KeyError. vm_compute. reflexivity.
Defined.



(** ** Headshot files stay in the headshot directory *)

Lemma chars_app (a b : string) : Str.chars (a ++ b) = (Str.chars a ++ Str.chars b)%list.
Proof. induction a as [|c a IH]; simpl; [reflexivity | by rewrite <- IH]. Qed.

Lemma no_slash_app (a b : string) :
  no_slash a = true -> no_slash b = true -> no_slash (a ++ b) = true.
Proof.
  unfold no_slash. intros Ha Hb. by rewrite chars_app, forallb_app, Ha, Hb.
Qed.

Lemma no_slash_slug (s : string) : is_slug s = true -> no_slash s = true.
Proof.
  unfold is_slug, no_slash. intros H.
  apply andb_true_iff in H as [H _]. apply andb_true_iff in H as [H _].
  apply andb_true_iff in H as [H _].
  induction (Str.chars s) as [|c l IH]; simpl in *; [reflexivity|].
  apply andb_true_iff in H as [Hc Hl]. rewrite IH by done. rewrite andb_true_r.
  apply negb_true_iff. apply Ascii.eqb_neq. intros ->. discriminate Hc.
Qed.

Lemma pretty_N_char_no_slash (x : N) :
  negb (Path.is_slash (pretty_N_char x)) = true.
Proof.
  destruct x as [|p]; [reflexivity|].
  do 4 (destruct p as [p|p|]; try reflexivity).
Qed.

Lemma pretty_N_go_no_slash (x : N) (s : string) :
  no_slash s = true -> no_slash (pretty_N_go x s) = true.
Proof.
  revert s. induction x as [x IH] using (well_founded_induction N.lt_wf_0).
  intros s Hs. destruct (decide (0 < x)%N) as [Hx|Hx].
  - rewrite pretty_N_go_step by exact Hx. apply IH.
    + by apply N.div_lt.
    + unfold no_slash. simpl. rewrite pretty_N_char_no_slash. exact Hs.
  - assert (x = 0%N) as -> by lia. by rewrite pretty_N_go_0.
Qed.

Lemma pretty_Z_no_slash (z : Z) : no_slash (pretty z) = true.
Proof.
  assert (HN : forall n : N, no_slash (pretty n) = true).
  { intros n. unfold pretty, pretty_N. destruct (decide (n = 0%N)); [reflexivity|].
    by apply pretty_N_go_no_slash. }
  destruct z as [|p|p]; unfold pretty, pretty_Z; [reflexivity|apply HN|].
  apply (no_slash_app "-"); [reflexivity | apply HN].
Qed.

Lemma split_no_slash (p : string) :
  Forall (fun comp => no_slash comp = true) (Str.split Path.slash p).
Proof.
  induction p as [|c p IH]; simpl; [by repeat constructor|].
  destruct (Ascii.eqb c Path.slash) eqn:Hc; [by constructor|].
  destruct (Str.split Path.slash p) as [|h t].
  - constructor; [|constructor]. unfold no_slash, Path.is_slash. simpl.
    by rewrite Hc.
  - apply Forall_cons in IH as [Hh Ht]. constructor; [|exact Ht].
    unfold no_slash, Path.is_slash. simpl. rewrite Hc. exact Hh.
Qed.

Lemma name_no_slash (p : string) : no_slash (Path.name p) = true.
Proof.
  unfold Path.name.
  set (comps := List.filter _ _).
  assert (Hall : Forall (fun comp => no_slash comp = true) comps).
  { subst comps. pose proof (split_no_slash p) as H.
    induction H as [|x l Hx _ IH]; simpl; [constructor|].
    destruct (negb _); [by constructor | exact IH]. }
  clearbody comps. induction Hall as [|x l Hx Hl IH]; [reflexivity|].
  destruct l; [exact Hx | exact IH].
Qed.

Lemma suffix_no_slash (p : string) : no_slash (Path.suffix p) = true.
Proof.
  unfold Path.suffix. pose proof (name_no_slash p) as Hname.
  destruct (Path.rfind_dot _ _ _) as [i|]; [|reflexivity].
  destruct (_ && _)%bool; [|reflexivity].
  unfold no_slash in *. rewrite chars_of_chars.
  rewrite <- (firstn_skipn i (Str.chars (Path.name p))) in Hname.
  rewrite forallb_app in Hname. by apply andb_true_iff in Hname as [_ H].
Qed.

Lemma candidate_body_keeps_placed
  (zip_file : gmap string Member) (display_name : string)
  (row_image_map : gmap Z string) (candidates candidates' : list Candidate)
  (row : Z * gmap string string) :
  Forall headshot_placed candidates ->
  candidate_body zip_file display_name row_image_map candidates row = Ok candidates' ->
  Forall headshot_placed candidates'.
Proof.
  destruct row as [row_idx cells]. intros Hall Hrun. unfold candidate_body in Hrun.
  destruct (negb _); [by injection Hrun as <-|].
  apply rbind_Ok in Hrun as (h & Hh & Hrun). injection Hrun as <-.
  apply Forall_app. split; [exact Hall|]. constructor; [|constructor].
  intros path Hpath. cbn [headshot] in Hpath. subst h.
  destruct (row_image_map !! row_idx) as [rel|]; [|discriminate Hh].
  destruct (Str.truthy rel); [|discriminate Hh].
  apply rbind_Ok in Hh as (_ & _ & Hh).
  apply (f_equal (fun r => match r with Ok (Some x) => x | _ => path end)) in Hh.
  cbv beta iota in Hh. rewrite <- Hh.
  unfold ensure_headshot_path. eexists. split; [reflexivity|].
  apply no_slash_app.
  - apply no_slash_app; [apply no_slash_slug, slugify_shape|].
    apply (no_slash_app "-"); [reflexivity|].
    destruct (Str.truthy (slugify _)); [apply no_slash_slug, slugify_shape|].
    apply (no_slash_app "row-"); [reflexivity | apply pretty_Z_no_slash].
  - destruct (Str.truthy (Path.suffix _)); [apply suffix_no_slash | reflexivity].
Qed.

(** X18.  Every headshot path in the output of a run that returns names a
    file directly inside [assets/headshots]: the part after the directory
    holds no slash, whatever the sheet names, candidate names and image
    paths of the package are. *)
Theorem headshots_in_directory (py_int : string -> option Z)
  (zip_file : gmap string Member) (positions : list Position)
  (p : Position) (c : Candidate) (path : string) :
  extract py_int zip_file = Ok positions ->
  p ∈ positions -> c ∈ candidates p -> headshot c = Some path ->
  exists file, path = "assets/headshots/" ++ file /\ no_slash file = true.
Proof.
  intros Hrun Hp Hc Hpath.
  pose proof (extract_keeps py_int zip_file headshot_placed
                (candidate_body_keeps_placed zip_file) positions Hrun) as Hall.
  rewrite Forall_forall in Hall. destruct (Hall p Hp) as [_ Hcs].
  rewrite Forall_forall in Hcs. exact (Hcs c Hc path Hpath).
Qed.

Lemma headshots_in_directory_witness :
  exists file,
    "assets/headshots/vice-president-of-internal-affairs-alice.png"
    = "assets/headshots/" ++ file
    /\ no_slash file = true.
Proof.
  apply (headshots_in_directory int_literal Sample.package
           [mkPosition "Vice President of Internal Affairs"
              "vice-president-of-internal-affairs" "Vice President of Internal Affa"
              [mkCandidate "Alice" "Vote for me"
                 (Some "assets/headshots/vice-president-of-internal-affairs-alice.png")]]
           (mkPosition "Vice President of Internal Affairs"
              "vice-president-of-internal-affairs" "Vice President of Internal Affa"
              [mkCandidate "Alice" "Vote for me"
                 (Some "assets/headshots/vice-president-of-internal-affairs-alice.png")])
           (mkCandidate "Alice" "Vote for me"
              (Some "assets/headshots/vice-president-of-internal-affairs-alice.png"))).
  - vm_compute. reflexivity.
  - left.
  - left.
  - reflexivity.
Defined.

(** ** Headshots and anchors *)

(** X19.  A candidate gets a headshot only from an anchor: when the body of
    the data-row loop, run with the anchor map of a drawing, appends a
    candidate with a headshot, some anchor of the drawing contributes a
    picture at the row index of the data row minus one. *)
Theorem headshot_requires_anchor
  (py_int : string -> option Z) (zip_file : gmap string Member)
  (drawing_path : string) (rel_root drawing : Element)
  (rel_map : gmap string string) (m : gmap Z string)
  (display_name : string) (candidates candidates' : list Candidate)
  (row_idx : Z) (cells : gmap string string) :
  zip_file !! rels_path drawing_path = Some (Xml rel_root) ->
  build_rel_map
    (fun target => Path.normpath (Path.join (Path.dirname drawing_path) [target]))
    (findall Tag.Relationship rel_root) = Ok rel_map ->
  zip_file !! drawing_path = Some (Xml drawing) ->
  map_anchor_rows_to_images py_int zip_file drawing_path = Ok m ->
  candidate_body zip_file display_name m candidates (row_idx, cells) = Ok candidates' ->
  candidates' = candidates
  \/ exists c,
       candidates' = (candidates ++ [c])%list
       /\ (is_Some (headshot c) ->
           exists anchor image_path,
             anchor ∈ children drawing
             /\ anchor_picture py_int rel_map anchor = Some (row_idx - 1, image_path)
             /\ is_Some (zip_file !! Path.normpath image_path)).
Proof.
  intros Hrels Hmap Hdrawing Hrun Hcand.
  destruct (blank (Str.or_empty (cells !! "A"))) eqn:Hb.
  - left. rewrite candidate_body_blank in Hcand by exact Hb. congruence.
  - right. pose proof Hcand as Hcand'.
    destruct (candidate_body_named _ _ _ _ _ _ _ Hb Hcand) as (h & -> & Hh).
    eexists. split; [reflexivity|]. cbn [headshot]. intros Hsome.
    destruct (proj1 Hh Hsome) as (rel & Hrel & Htruthy).
    rewrite (map_anchor_rows_to_images_loop py_int zip_file drawing_path rel_root
               drawing rel_map Hrels Hmap Hdrawing) in Hrun.
    destruct (anchors_loop_entries py_int rel_map _ m Hrun row_idx rel Hrel)
      as (anchor & Hin & Hpic).
    exists anchor, rel. split; [exact Hin|]. split; [exact Hpic|].
    destruct (zip_file !! Path.normpath rel) eqn:Hzip; [eauto|].
    exfalso. unfold candidate_body in Hcand'.
    destruct (negb _); [|].
    + apply (f_equal (fun r => match r with Ok l => length l | _ => 0%nat end)) in Hcand'.
      cbv beta iota in Hcand'. rewrite length_app in Hcand'. simpl in Hcand'. lia.
    + rewrite Hrel, Htruthy in Hcand'. unfold zip_read in Hcand'.
      rewrite Hzip in Hcand'. cbn [rbind] in Hcand'. discriminate Hcand'.
Qed.

Lemma headshot_requires_anchor_witness :
  [mkCandidate "Alice" "" (Some "assets/headshots/treasurer-alice.png")] = []
  \/ exists c,
       [mkCandidate "Alice" "" (Some "assets/headshots/treasurer-alice.png")]
       = ([] ++ [c])%list
       /\ (is_Some (headshot c) ->
           exists anchor image_path,
             anchor ∈ [Sample.anchor "2" "rId1"]
             /\ anchor_picture int_literal {[ "rId1" := "xl/media/image1.png" ]} anchor
                = Some (3 - 1, image_path)
             /\ is_Some (Sample.package !! Path.normpath image_path)).
Proof.
  apply (headshot_requires_anchor int_literal Sample.package
           "xl/drawings/drawing1.xml"
           (Sample.relationships_root
              [Sample.relationship "rId1" (Sample.type_of "image") "../media/image1.png"])
           (Sample.drawing_root [Sample.anchor "2" "rId1"])
           {[ "rId1" := "xl/media/image1.png" ]}
           {[ 3 := "xl/media/image1.png" ]}
           "Treasurer" [] _ 3 (<["A" := "Alice"]> ∅)).
  - vm_compute. reflexivity.
  - vm_compute. reflexivity.
  - vm_compute. reflexivity.
  - vm_compute. reflexivity.
  - vm_compute. reflexivity.
Defined.

Lemma candidate_body_no_map
  (zip_file : gmap string Member) (display_name : string)
  (candidates candidates' : list Candidate) (row : Z * gmap string string) :
  Forall no_headshot candidates ->
  candidate_body zip_file display_name ∅ candidates row = Ok candidates' ->
  Forall no_headshot candidates'.
Proof.
  destruct row as [row_idx cells]. intros Hall Hrun.
  destruct (blank (Str.or_empty (cells !! "A"))) eqn:Hb.
  - rewrite candidate_body_blank in Hrun by done. by injection Hrun as <-.
  - destruct (candidate_body_named _ _ _ _ _ _ _ Hb Hrun) as (h & -> & Hh).
    apply Forall_app. split; [done|]. constructor; [|constructor].
    unfold no_headshot. cbn [headshot]. destruct h as [path|]; [|reflexivity].
    destruct (proj1 Hh ltac:(eauto)) as (rel & Hrel & _).
    by rewrite lookup_empty in Hrel.
Qed.

(** X20.  A sheet without a drawing yields candidates without headshots:
    when the Drawing Locator returns "none" for the sheet, the body of the
    sheet loop appends nothing or a Position none of whose candidates has a
    headshot. *)
Theorem no_drawing_no_headshots
  (py_int : string -> option Z) (zip_file : gmap string Member)
  (shared_strings : list string) (positions positions' : list Position)
  (sheet_name sheet_path : string) :
  find_drawing_path zip_file sheet_path = Ok None ->
  position_body py_int zip_file shared_strings positions (sheet_name, sheet_path)
  = Ok positions' ->
  positions' = positions
  \/ exists p, positions' = (positions ++ [p])%list
               /\ Forall (fun c => headshot c = None) (candidates p).
Proof.
  intros Hnone Hrun. unfold position_body in Hrun.
  rewrite Hnone in Hrun. cbn [rbind] in Hrun.
  apply rbind_Ok in Hrun as (rows & _ & Hrun).
  destruct rows as [|header data_rows]; [left; congruence|].
  apply rbind_Ok in Hrun as (cs & Hcs & Hrun). injection Hrun as <-.
  right. eexists. split; [reflexivity|]. cbn [candidates].
  eapply (for_loop_invariant _ (Forall no_headshot)); [constructor| |exact Hcs].
  intros row t t' _. apply candidate_body_no_map.
Qed.

Lemma no_drawing_no_headshots_witness :
  [mkPosition "Treasurer" "treasurer" "Treasurer"
     [mkCandidate "Bob" "Count on me" None]] = []
  \/ exists p,
       [mkPosition "Treasurer" "treasurer" "Treasurer"
          [mkCandidate "Bob" "Count on me" None]] = ([] ++ [p])%list
       /\ Forall (fun c => headshot c = None) (candidates p).
Proof.
  apply (no_drawing_no_headshots int_literal Sample.two_sheet_package [] [] _
           "Treasurer" "xl/worksheets/sheet2.xml").
  - vm_compute. reflexivity.
  - vm_compute. reflexivity.
Defined.

(** ** Sheet Target Loader and Shared String Table Loader: when they return *)




(** ** Row Reader: plain cells and coordinates *)

Lemma filter_chars_letters_then_others (letters others : string) :
  forallb Str.isalpha (Str.chars letters) = true ->
  forallb (fun c => negb (Str.isalpha c)) (Str.chars others) = true ->
  Str.filter_chars Str.isalpha (letters ++ others) = letters.
Proof.
  intros Hl Ho. unfold Str.filter_chars. rewrite chars_app, List.filter_app.
  assert (H1 : List.filter Str.isalpha (Str.chars letters) = Str.chars letters).
  { induction (Str.chars letters) as [|c l IH]; simpl in *; [reflexivity|].
    apply andb_true_iff in Hl as [Hc Hl]. by rewrite Hc, IH. }
  assert (H2 : List.filter Str.isalpha (Str.chars others) = []).
  { induction (Str.chars others) as [|c l IH]; simpl in *; [reflexivity|].
    apply andb_true_iff in Ho as [Hc Ho]. apply negb_true_iff in Hc.
    by rewrite Hc, IH. }
  rewrite H1, H2, app_nil_r. apply of_chars_chars.
Qed.

(** X22.  A cell that is not a shared-string reference, with a value element
    and a coordinate made of letters followed by characters that are not
    letters, is stored under those letters with the text of its value
    element as it stands (the empty text when the element has none), and
    reading it never raises. *)
Theorem plain_cell_stored
  (py_int : string -> option Z) (shared_strings : list string)
  (cells : gmap string string) (cell value_element : Element)
  (letters others : string) :
  attrib cell !! "r" = Some (letters ++ others) ->
  letters <> "" ->
  forallb Str.isalpha (Str.chars letters) = true ->
  forallb (fun c => negb (Str.isalpha c)) (Str.chars others) = true ->
  attrib cell !! "t" <> Some "s" ->
  find Tag.v cell = Some value_element ->
  read_cell py_int shared_strings cells cell
  = Ok (<[letters := Str.or_empty (text value_element)]> cells).
Proof.
  intros Hr Hne Hl Ho Ht Hv. unfold read_cell. rewrite Hv.
  replace (default "" (attrib cell !! "r")) with (letters ++ others)
    by (by rewrite Hr).
  rewrite filter_chars_letters_then_others by done.
  destruct (Str.eqb letters "") eqn:Hc; [by apply String.eqb_eq in Hc|].
  rewrite bool_decide_eq_false_2 by exact Ht. reflexivity.
Qed.

Lemma plain_cell_stored_witness :
  read_cell int_literal [] ∅ (Sample.cell (Some "AB12") None " Bob ")
  = Ok (<["AB" := " Bob "]> ∅).
Proof.
  apply (plain_cell_stored int_literal [] ∅
           (Sample.cell (Some "AB12") None " Bob ")
           (Sample.el Tag.v [] (Some " Bob ") []) "AB" "12").
  - vm_compute. reflexivity.
  - discriminate.
  - vm_compute. reflexivity.
  - vm_compute. reflexivity.
  - vm_compute. discriminate.
  - vm_compute. reflexivity.
Defined.

(** ** Where the relationship file of a part is looked up *)

Lemma append_assoc (a b c : string) : (a ++ b) ++ c = a ++ (b ++ c).
Proof.
  induction a as [|x a IH]; [reflexivity|].
  change (String x ((a ++ b) ++ c) = String x (a ++ (b ++ c))). by rewrite IH.
Qed.

Lemma prefix_empty (s : string) : String.prefix "" s = true.
Proof. by destruct s. Qed.

Lemma startswith_slash (s : string) :
  Str.startswith s "/" = negb (head_not Path.is_slash (Str.chars s)).
Proof.
  unfold Str.startswith. destruct s as [|c s]; [reflexivity|].
  change (String.prefix "/" (String c s))
    with (if ascii_dec "/" c then String.prefix "" s else false).
  change (head_not Path.is_slash (Str.chars (String c s)))
    with (negb (Ascii.eqb c "/")).
  rewrite negb_involutive.
  destruct (ascii_dec "/" c) as [<-|Hne]; [by rewrite prefix_empty|].
  symmetry. apply Ascii.eqb_neq. congruence.
Qed.

Lemma endswith_slash (s : string) :
  Str.endswith s "/" = negb (head_not Path.is_slash (rev (Str.chars s))).
Proof.
  unfold Str.endswith.
  rewrite <- (chars_of_chars (rev (Str.chars s))) at 2.
  apply (startswith_slash (Str.of_chars (rev (Str.chars s)))).
Qed.

Lemma drop_while_app_all (p : ascii -> bool) (l1 l2 : list ascii) :
  forallb p l1 = true -> Str.drop_while p (l1 ++ l2) = Str.drop_while p l2.
Proof.
  induction l1 as [|c l1 IH]; simpl; [done|]. intros H.
  apply andb_true_iff in H as [Hc Hl]. rewrite Hc. by apply IH.
Qed.

Lemma drop_while_stop (p : ascii -> bool) (l : list ascii) :
  head_not p l = true -> Str.drop_while p l = l.
Proof. destruct l as [|c l]; simpl; [done|]. intros H. apply negb_true_iff in H. by rewrite H. Qed.

Lemma split_nonempty (sep : ascii) (s : string) : Str.split sep s <> [].
Proof.
  induction s as [|c s IH]; simpl; [discriminate|].
  destruct (Ascii.eqb c sep); [discriminate|].
  destruct (Str.split sep s); [congruence | discriminate].
Qed.

Lemma split_app (sep : ascii) (a b : string) :
  Str.split sep (a ++ String sep b) = (Str.split sep a ++ Str.split sep b)%list.
Proof.
  induction a as [|c a IH]; simpl.
  - by rewrite Ascii.eqb_refl.
  - destruct (Ascii.eqb c sep); [by rewrite IH|]. rewrite IH.
    pose proof (split_nonempty sep a) as Hne.
    destruct (Str.split sep a); [congruence | reflexivity].
Qed.

Lemma split_no_sep (s : string) : no_slash s = true -> Str.split Path.slash s = [s].
Proof.
  unfold no_slash, Path.is_slash. induction s as [|c s IH]; simpl; [reflexivity|].
  intros H. apply andb_true_iff in H as [Hc Hs]. apply negb_true_iff in Hc.
  rewrite Hc, IH by done. reflexivity.
Qed.

Section Sidecar.
Variables dir file : string.
Hypothesis dir_nonempty : dir <> "".
Hypothesis dir_end : head_not Path.is_slash (rev (Str.chars dir)) = true.
Hypothesis file_plain : no_slash file = true.
Hypothesis file_named : file <> "" /\ file <> ".".

Lemma dirname_of_part : Path.dirname (dir ++ "/" ++ file) = dir.
Proof.
  unfold Path.dirname. change ("/" ++ file) with (String "/" file).
  rewrite chars_app.
  change (Str.chars (String "/" file)) with ("/"%char :: Str.chars file).
  rewrite rev_app_distr. simpl rev. rewrite <- app_assoc. simpl app.
  rewrite drop_while_app_all.
  2:{ rewrite forallb_rev. exact file_plain. }
  change (Str.drop_while (fun c => negb (Path.is_slash c))
            ("/"%char :: rev (Str.chars dir)))
    with ("/"%char :: rev (Str.chars dir)).
  change (rev ("/"%char :: rev (Str.chars dir)))
    with (rev (rev (Str.chars dir)) ++ ["/"%char])%list.
  rewrite rev_involutive.
  assert (Hnot : forallb Path.is_slash (Str.chars dir ++ ["/"%char]) = false).
  { rewrite <- forallb_rev, rev_app_distr. simpl.
    destruct (rev (Str.chars dir)) as [|c l] eqn:Hrev.
    - exfalso. apply dir_nonempty. rewrite <- (of_chars_chars dir).
      apply (f_equal (@rev ascii)) in Hrev. rewrite rev_involutive in Hrev.
      by rewrite Hrev.
    - simpl in dir_end. apply negb_true_iff in dir_end. simpl. by rewrite dir_end. }
  rewrite Hnot. simpl negb. cbv iota.
  unfold Str.rstrip_by. rewrite rev_app_distr. simpl.
  rewrite drop_while_stop by exact dir_end.
  rewrite rev_involutive. apply of_chars_chars.
Qed.

Lemma name_of_part : Path.name (dir ++ "/" ++ file) = file.
Proof.
  unfold Path.name. change ("/" ++ file) with (String Path.slash file).
  rewrite split_app, (split_no_sep file) by exact file_plain.
  rewrite List.filter_app. simpl List.filter.
  destruct file_named as [H1 H2].
  apply String.eqb_neq in H1, H2. unfold Str.eqb. rewrite H1, H2. simpl.
  apply last_last.
Qed.

End Sidecar.

(** X23.  For a part [dir/file] (the directory not empty and not ending in a
    slash, the file name without a slash and neither empty nor a dot), the
    relationship file is looked up at [dir/_rels/file.rels]. *)
Theorem rels_path_sidecar (dir file : string) :
  dir <> "" ->
  head_not Path.is_slash (rev (Str.chars dir)) = true ->
  no_slash file = true ->
  file <> "" /\ file <> "." ->
  rels_path (dir ++ "/" ++ file) = dir ++ "/_rels/" ++ file ++ ".rels".
Proof.
  intros Hdir Hend Hplain Hnamed. unfold rels_path.
  rewrite dirname_of_part, name_of_part by done.
  unfold Path.join. cbn [fold_left]. unfold Path.join2.
  assert (Htruthy : forall s, Str.truthy (dir ++ s) = true).
  { intros s. destruct dir; [congruence | reflexivity]. }
  rewrite (startswith_slash "_rels"). simpl negb. cbv iota.
  rewrite (proj2 (truthy_true_iff dir) Hdir).
  rewrite endswith_slash, Hend. simpl negb. simpl orb. cbv iota.
  rewrite startswith_slash, chars_app.
  assert (Hfile : head_not Path.is_slash (Str.chars file ++ Str.chars ".rels") = true).
  { destruct Hnamed as [Hne _]. unfold no_slash in Hplain.
    destruct file as [|c f]; [congruence|]. simpl in *.
    by apply andb_true_iff in Hplain as [Hc _]. }
  rewrite Hfile. simpl negb. cbv iota.
  rewrite Htruthy, endswith_slash, chars_app, rev_app_distr. simpl orb. cbv iota.
  change (negb (head_not Path.is_slash (rev (Str.chars "/_rels") ++ rev (Str.chars dir))))
    with false. cbv iota.
  rewrite !append_assoc. reflexivity.
Qed.

Lemma rels_path_sidecar_witness :
  rels_path ("xl/drawings" ++ "/" ++ "drawing1.xml")
  = "xl/drawings" ++ "/_rels/" ++ "drawing1.xml" ++ ".rels".
Proof.
  apply (rels_path_sidecar "xl/drawings" "drawing1.xml").
  - discriminate.
  - vm_compute. reflexivity.
  - vm_compute. reflexivity.
  - split; discriminate.
Defined.
